(** * The currency converter widget: rate cache, rate resolution, conversion

    A shallow embedding of [src/script.js] (class [CurrencyConverter]).

    - JavaScript numbers are IEEE 754 binary64 values: Rocq's primitive
      [float], with the same rounding, NaN and signed zeros.
    - The values that reach the rate cache come out of [response.json()]:
      [value] below has the JSON leaves null, boolean and number, and JSON
      objects as finite maps of own properties.  String and array leaves are
      outside the model (their conversion to a number goes through the
      host's string parser).  A property read is a read of an own
      property: [Get] and [cacheGet] agree with the source's [v[k]] for
      every name [k] that is not the name of a property inherited from
      [Object.prototype] ([inherited] lists those names).  For such a name
      and no own property the source finds a function (or the prototype
      itself) where the model finds [undefined]; no currency code is such a
      name, and the statements about codes that no table knows carry the
      hypothesis [inherited k = false].
    - The instance ([this]), the part of the DOM the methods write, the
      console and the log of requested URLs are one explicit state; the
      network and the clock are an environment ([host]).  A method is a
      state transformer that either returns or throws.  Each [async] method
      is run to completion: the interleaving of two pending methods is not
      modelled, only the order in which fetch completions reach the cache
      (module [Completions]). *)

From Stdlib Require Import PrimFloat FloatAxioms SpecFloat FloatOps.
From stdpp Require Import gmap strings list fin_maps.

Set Warnings "-inexact-float".
Open Scope string_scope.

(** ** Values and errors *)

#[warnings="-register-all"] Inductive value :=
| VUndefined
| VNull
| VBool (b : bool)
| VNum (x : float)
| VObj (o : gmap string value).

Inductive error :=
| TypeError
| RangeError
| SyntaxError
| NetworkError (reason : string).

Inductive result (A : Type) :=
| Ok (a : A)
| Throw (e : error).
Arguments Ok {A} a.
Arguments Throw {A} e.

(** [!x] is [negb (truthy x)]; [x || y] evaluates [y] only if [x] is falsy. *)
Definition falsy_num (x : float) : bool := is_zero x || is_nan x.

Definition truthy (v : value) : bool :=
  match v with
  | VUndefined | VNull => false
  | VBool b => b
  | VNum x => negb (falsy_num x)
  | VObj _ => true
  end.

(** The names of the properties every object inherits from
    [Object.prototype]. *)
Definition objectPrototypeNames : list string :=
  ["constructor"; "__defineGetter__"; "__defineSetter__"; "hasOwnProperty";
   "__lookupGetter__"; "__lookupSetter__"; "isPrototypeOf";
   "propertyIsEnumerable"; "toString"; "valueOf"; "__proto__";
   "toLocaleString"].

Definition inherited (k : string) : bool :=
  existsb (String.eqb k) objectPrototypeNames.

(** [v[k]] for a name [k] that is not inherited: reading a property of
    [undefined] or [null] throws; a number or a boolean has no own
    property; an object yields its own property or [undefined].  An own
    property is found under any name. *)
Definition Get (v : value) (k : string) : result value :=
  match v with
  | VUndefined | VNull => Throw TypeError
  | VBool _ | VNum _ => Ok VUndefined
  | VObj o => Ok (default VUndefined (o !! k))
  end.

(** The conversion applied to the operands of [*] and [/].  A plain object
    converts through [Object.prototype.toString] to NaN, unless an own
    (hence not callable) property shadows [toString], in which case the
    conversion to a primitive throws. *)
Definition ToNumber (v : value) : result float :=
  match v with
  | VUndefined => Ok nan
  | VNull => Ok 0%float
  | VBool b => Ok (if b then 1%float else 0%float)
  | VNum x => Ok x
  | VObj o => if decide (is_Some (o !! "toString")) then Throw TypeError else Ok nan
  end.

(** [data.rates || data]: the table taken out of a response body, either
    the [rates] member of a wrapper or the body itself. *)
Definition ratesOrData (data : value) : result value :=
  match Get data "rates" with
  | Ok rates => Ok (if truthy rates then rates else data)
  | Throw e => Throw e
  end.

(** The entry of a table that [table[code] || ...] settles on: present and
    truthy. *)
Definition entry (table : gmap string value) (code : string) : option value :=
  match table !! code with
  | Some d => if truthy d then Some d else None
  | None => None
  end.

(** ** The environment: network and clock *)

(** [fetch] either rejects or resolves to a response; [response.json()]
    either rejects (body not JSON) or resolves to the parsed body. *)
Record response := mkResponse {
  ok : bool;
  body : result value
}.

Inductive fetch_outcome :=
| FetchReject (e : error)
| FetchResolve (r : response).

(** The outcome of a request may depend on the URL and on the requests
    made before it (in chronological order). *)
Record host := mkHost {
  host_fetch : list string -> string -> fetch_outcome;
  host_now : list string -> nat
}.

(** ** The state *)

(** What [resultContent.innerHTML] holds.  The markup of a result is kept
    as the four values it is formatted from: the amount given to the
    currency formatter, the two codes and the rate given to [toFixed]. *)
Inductive html :=
| HtmlInitial
| HtmlResult (amount : float) (from to : string) (rate : float)
| HtmlError (message : string).

(** The elements written by [showLoading], [showResult] and [showError]. *)
Record elements := mkElements {
  loading_show : bool;
  resultContent_display : string;
  result_error : bool;
  result_show : bool;
  resultContent_innerHTML : html;
  rateInfo_display : string
}.

Record converter := mkConverter {
  exchangeRates : gmap string value;
  lastUpdate : option nat;
  page : elements;
  console : list (string * error);
  requests : list string
}.

Definition set_exchangeRates (f : gmap string value -> gmap string value) (s : converter) : converter :=
  mkConverter (f (exchangeRates s)) (lastUpdate s) (page s) (console s) (requests s).

Definition set_lastUpdate (t : option nat) (s : converter) : converter :=
  mkConverter (exchangeRates s) t (page s) (console s) (requests s).

Definition set_page (f : elements -> elements) (s : converter) : converter :=
  mkConverter (exchangeRates s) (lastUpdate s) (f (page s)) (console s) (requests s).

Definition set_console (f : list (string * error) -> list (string * error)) (s : converter) : converter :=
  mkConverter (exchangeRates s) (lastUpdate s) (page s) (f (console s)) (requests s).

Definition set_requests (f : list string -> list string) (s : converter) : converter :=
  mkConverter (exchangeRates s) (lastUpdate s) (page s) (console s) (f (requests s)).

(** ** Computations: state plus exceptions *)

Definition M (A : Type) : Type := converter -> result A * converter.

Definition ret {A} (a : A) : M A := fun s => (Ok a, s).

Definition bind {A B} (m : M A) (k : A -> M B) : M B :=
  fun s => match m s with
           | (Ok a, s') => k a s'
           | (Throw e, s') => (Throw e, s')
           end.

Definition throw {A} (e : error) : M A := fun s => (Throw e, s).

(** [try { m } catch (error) { h error }] *)
Definition try_catch {A} (m : M A) (h : error -> M A) : M A :=
  fun s => match m s with
           | (Ok a, s') => (Ok a, s')
           | (Throw e, s') => h e s'
           end.

Definition gets {A} (f : converter -> A) : M A := fun s => (Ok (f s), s).

Definition modify (f : converter -> converter) : M unit := fun s => (Ok tt, f s).

Definition lift {A} (r : result A) : M A := fun s => (r, s).

#[global] Instance M_ret : MRet M := @ret.
#[global] Instance M_bind : MBind M := fun A B k m => bind m k.

(** ** The methods of [CurrencyConverter] *)

Definition baseUrl : string := "https://api.exchangerate-api.com/v4/latest/".
Definition fallbackUrl : string := "https://api.fxratesapi.com/latest".

Definition initial_page : elements :=
  mkElements false "" false false HtmlInitial "".

(** The instance as [initElements] leaves it: an empty cache, no update
    time. *)
Definition initElements : converter :=
  mkConverter ∅ None initial_page [] [].

Section Methods.

Variable env : host.

(** [await fetch(url)] *)
Definition fetch (url : string) : M response :=
  fun s =>
    let s' := set_requests (fun l => (l ++ [url])%list) s in
    match host_fetch env (requests s) url with
    | FetchReject e => (Throw e, s')
    | FetchResolve r => (Ok r, s')
    end.

(** [await response.json()] *)
Definition json (r : response) : M value := lift (body r).

(** [this.exchangeRates[code]], for a [code] that is not inherited or that
    the cache has as an own property. *)
Definition cacheGet (s : converter) (code : string) : value :=
  default VUndefined (exchangeRates s !! code).

Definition cached (code : string) : M value :=
  gets (fun s => cacheGet s code).

(** The cache holds a table for [code], as the methods test it:
    [this.exchangeRates[code]] is truthy. *)
Definition has_table (s : converter) (code : string) : bool :=
  truthy (cacheGet s code).

(** [this.exchangeRates[base] = data.rates || data] *)
Definition storeRates (base : string) (data : value) : M unit :=
  table ← lift (ratesOrData data);
  modify (set_exchangeRates <[base := table]>).

Definition console_error (label : string) (e : error) : M unit :=
  modify (set_console (fun l => (l ++ [(label, e)])%list)).

Definition showLoading : M unit :=
  modify (set_page (fun d =>
    mkElements true "none" false (result_show d)
          (resultContent_innerHTML d) (rateInfo_display d))).

Definition showError (message : string) : M unit :=
  modify (set_page (fun d =>
    mkElements false "block" true (result_show d)
          (HtmlError message) (rateInfo_display d))).

(** [Intl.NumberFormat] accepts a currency that is three ASCII letters and
    throws a RangeError on any other string. *)
Definition is_letter (c : Ascii.ascii) : bool :=
  let n := Ascii.nat_of_ascii c in
  ((65 <=? n) && (n <=? 90) || (97 <=? n) && (n <=? 122))%nat.

Definition well_formed_currency_code (code : string) : bool :=
  (String.length code =? 3)%nat && forallb is_letter (String.list_ascii_of_string code).

(** [showResult(amount, from, to, rate)]: the class changes, then the
    formatter for [to], then [rate.toFixed(6)], which only a number has;
    the markup and [rateInfo] are written after both succeeded. *)
Definition showResult (amount : float) (from to : string) (rate : value) : M unit :=
  modify (set_page (fun d =>
    mkElements false "block" false true
          (resultContent_innerHTML d) (rateInfo_display d)));;
  (if well_formed_currency_code to then ret tt else throw RangeError);;
  match rate with
  | VNum r =>
      modify (set_page (fun d =>
        mkElements (loading_show d) (resultContent_display d) (result_error d)
              (result_show d) (HtmlResult amount from to r) "block"))
  | _ => throw TypeError
  end.

Definition fallbackRates : gmap string value :=
  list_to_map
    [("EUR", VNum 0.85); ("GBP", VNum 0.73); ("JPY", VNum 110);
     ("AUD", VNum 1.35); ("CAD", VNum 1.25); ("CHF", VNum 0.92);
     ("CNY", VNum 6.45); ("INR", VNum 74.5); ("TRY", VNum 8.5);
     ("USD", VNum 1)]%float.

Definition loadFallbackRates : M unit :=
  modify (set_exchangeRates <["USD" := VObj fallbackRates]>).

(** The [try] block of [loadExchangeRates], in its two parts: the USD
    table (primary endpoint, then the secondary one on an error status),
    and the EUR table. *)
Definition loadUSD : M unit :=
  response ← fetch (baseUrl +:+ "USD");
  response ← (if negb (ok response)
              then fetch (fallbackUrl +:+ "?base=USD")
              else ret response);
  data ← json response;
  storeRates "USD" data;;
  modify (fun s => set_lastUpdate (Some (host_now env (requests s))) s).

Definition loadEUR : M unit :=
  response ← fetch (baseUrl +:+ "EUR");
  if ok response
  then eurData ← json response; storeRates "EUR" eurData
  else ret tt.

Definition loadExchangeRates_try : M unit :=
  loadUSD;; loadEUR.

(** The [catch] block of [loadExchangeRates]. *)
Definition loadExchangeRates_catch (error : error) : M unit :=
  console_error "Error loading exchange rates:" error;;
  showError "Failed to load exchange rates. Using fallback rates.";;
  loadFallbackRates.

Definition loadExchangeRates : M unit :=
  try_catch loadExchangeRates_try loadExchangeRates_catch.

(** The cross-rate through USD of the [catch] block of [getExchangeRate];
    [None] when the block does not return (the error is rethrown). *)
Definition crossRate (from to : string) : M (option value) :=
  usd ← cached "USD";
  if truthy usd then
    a ← lift (Get usd from);
    a ← lift (ToNumber a);
    let usdToFrom := (1 / a)%float in
    usdToTo ← lift (Get usd to);
    b ← lift (ToNumber usdToTo);
    ret (Some (VNum (b * usdToFrom)%float))
  else ret None.

(** The last line of [getExchangeRate]:
    [this.exchangeRates[from][to] || (1 / this.exchangeRates[to][from])] *)
Definition directOrInverse (from to : string) : M value :=
  table ← cached from;
  direct ← lift (Get table to);
  if truthy direct then ret direct
  else
    table' ← cached to;
    back ← lift (Get table' from);
    x ← lift (ToNumber back);
    ret (VNum (1 / x)%float).

(** The body of the [try] block of [getExchangeRate]. *)
Definition fetchRates (from : string) : M unit :=
  response ← fetch (baseUrl +:+ from);
  data ← json response;
  storeRates from data.

Definition getExchangeRate (from to : string) : M value :=
  table ← cached from;
  early ← (if negb (truthy table) then
             try_catch
               (fetchRates from;; ret None)
               (fun error =>
                  r ← crossRate from to;
                  match r with
                  | Some rate => ret (Some rate)
                  | None => throw error
                  end)
           else ret None);
  match early with
  | Some rate => ret rate
  | None => directOrInverse from to
  end.

(** [convertCurrency], with [amount] the result of
    [parseFloat(this.amountInput.value)] and [from], [to] the values of the
    two selects. *)
Definition convertCurrency (amount : float) (from to : string) : M unit :=
  if falsy_num amount || (amount <=? 0)%float then
    showError "Please enter a valid amount"
  else if String.eqb from to then
    showResult amount from to (VNum 1)
  else
    showLoading;;
    try_catch
      (rate ← getExchangeRate from to;
       r ← lift (ToNumber rate);
       let convertedAmount := (amount * r)%float in
       showResult convertedAmount from to rate)
      (fun error =>
         console_error "Conversion error:" error;;
         showError "Conversion failed. Please try again.").

End Methods.

(** ** Fetch completions reaching the cache *)

Module Completions.

(** A completion is a response body that was parsed, for the base whose
    table was requested.  Every fetch of a table ends in [storeRates]. *)
Definition completion : Type := string * value.

Definition complete (s : converter) (c : completion) : converter :=
  snd (storeRates c.1 c.2 s).

(** Completions applied in the order in which they arrive. *)
Definition run (cs : list completion) (s : converter) : converter :=
  fold_left complete cs s.

(** The table of the latest completion for [base] that stored one. *)
Fixpoint lastFetched (base : string) (cs : list completion) : option value :=
  match cs with
  | [] => None
  | c :: cs' =>
      match lastFetched base cs' with
      | Some table => Some table
      | None =>
          if String.eqb c.1 base
          then match ratesOrData c.2 with
               | Ok table => Some table
               | Throw _ => None
               end
          else None
      end
  end.

End Completions.

(** ** Sample environments and states *)

Module Samples.

(** Every request is rejected. *)
Definition offline : host :=
  mkHost (fun _ _ => FetchReject (NetworkError "offline")) (fun _ => 0).

(** The instance after a startup without network. *)
Definition afterOfflineStartup : converter :=
  snd (loadExchangeRates offline initElements).

Definition table (l : list (string * float)) : value :=
  VObj (list_to_map (prod_map id VNum <$> l)).

Definition wrapped (l : list (string * float)) : value :=
  VObj {[ "rates" := table l ]}.

Definition withRates (m : gmap string value) : converter :=
  set_exchangeRates (fun _ => m) initElements.

Definition respond (okay : bool) (data : value) : fetch_outcome :=
  FetchResolve (mkResponse okay (Ok data)).

(** The primary endpoint is unreachable, the secondary one would answer. *)
Definition primaryDown : host :=
  mkHost (fun _ url =>
            if String.eqb url (fallbackUrl +:+ "?base=USD")
            then respond true (wrapped [("EUR", 0.9); ("USD", 1)]%float)
            else FetchReject (NetworkError "unreachable"))
         (fun _ => 0).

(** The primary endpoint answers USD with an error status, the secondary
    one answers, and the request for the EUR table is rejected. *)
Definition eurDown : host :=
  mkHost (fun _ url =>
            if String.eqb url (baseUrl +:+ "USD")
            then FetchResolve (mkResponse false (Throw SyntaxError))
            else if String.eqb url (fallbackUrl +:+ "?base=USD")
            then respond true (wrapped [("EUR", 0.9); ("USD", 1)]%float)
            else FetchReject (NetworkError "unreachable"))
         (fun _ => 0).

(** As [eurDown], with the EUR request answered by an error status. *)
Definition eurRefused : host :=
  mkHost (fun _ url =>
            if String.eqb url (baseUrl +:+ "USD")
            then FetchResolve (mkResponse false (Throw SyntaxError))
            else if String.eqb url (fallbackUrl +:+ "?base=USD")
            then respond true (wrapped [("EUR", 0.9); ("USD", 1)]%float)
            else FetchResolve (mkResponse false (Throw SyntaxError)))
         (fun _ => 0).

(** The primary endpoint answers the USD request; the EUR request is
    rejected. *)
Definition usdThenEurDown : host :=
  mkHost (fun _ url =>
            if String.eqb url (baseUrl +:+ "USD")
            then respond true (wrapped [("EUR", 0.9); ("USD", 1)]%float)
            else FetchReject (NetworkError "unreachable"))
         (fun _ => 0).

(** Both startup requests are answered by the primary endpoint, with
    tables that are not each other's inverse. *)
Definition skewed : host :=
  mkHost (fun _ url =>
            if String.eqb url (baseUrl +:+ "USD")
            then respond true (wrapped [("USD", 1); ("EUR", 0.85)]%float)
            else if String.eqb url (baseUrl +:+ "EUR")
            then respond true (wrapped [("EUR", 1); ("USD", 2)]%float)
            else FetchReject (NetworkError "unreachable"))
         (fun _ => 0).


(** A cache whose USD table lists EUR at 0. *)
Definition zeroEntry : converter :=
  withRates {[ "USD" := table [("EUR", 0)]%float;
               "EUR" := table [("USD", 1.25)]%float ]}.

End Samples.

(** ** Vocabulary of the properties *)

(** The response whose body [loadUSD] parses: the primary one unless its
    status is an error, else the secondary one. *)
Definition usdResponse (env : host) (s : converter) (r : response) : Prop :=
  (host_fetch env (requests s) (baseUrl +:+ "USD") = FetchResolve r /\ ok r = true) \/
  (exists r0,
     host_fetch env (requests s) (baseUrl +:+ "USD") = FetchResolve r0 /\
     ok r0 = false /\
     host_fetch env (requests s ++ [baseUrl +:+ "USD"])%list
                (fallbackUrl +:+ "?base=USD") = FetchResolve r).

(** Every request is rejected. *)
Definition unreachable (env : host) : Prop :=
  forall l url, exists e, host_fetch env l url = FetchReject e.

(** The state with [url] added to the log of requests. *)
Definition requested (url : string) (s : converter) : converter :=
  set_requests (fun l => (l ++ [url])%list) s.

(** The rate the resolver returns when the fallback table is the only
    cached table and no request succeeds: the entry itself from USD, the
    cross-rate from any other code. *)
Definition offlineRate (from : string) (a b : float) : float :=
  if String.eqb from "USD" then b else (b * (1 / a))%float.

(** The codes and numbers of [fallbackRates]. *)
Definition fallbackList : list (string * float) :=
  [("EUR", 0.85); ("GBP", 0.73); ("JPY", 110); ("AUD", 1.35); ("CAD", 1.25);
   ("CHF", 0.92); ("CNY", 6.45); ("INR", 74.5); ("TRY", 8.5); ("USD", 1)]%float.

(** The product of two doubles is within 2^-52 of 1. *)
Definition reciprocal (r1 r2 : float) : bool :=
  (abs (r1 * r2 - 1) <=? 0x1p-52)%float.

Ltac run_unfold :=
  unfold fetch, json, cached;
  unfold mbind, M_bind, bind, mret, M_ret, ret, throw, try_catch, gets, modify,
    lift.

Ltac run_cbn :=
  cbn [fst snd negb exchangeRates lastUpdate page console requests
       set_exchangeRates set_lastUpdate set_page set_console set_requests].

(** ** The input elements, [swapCurrencies] and the handlers of [bindEvents] *)

(** A [select] element: the values of its options and the value it reads
    as.  Assigning [select.value = v] selects the first option whose value
    is [v]; when no option has that value none is selected and the element
    reads as the empty string. *)
Record select := mkSelect {
  select_options : list string;
  select_value : string
}.

Definition select_set (v : string) (sel : select) : select :=
  mkSelect (select_options sel)
           (if decide (v ∈ select_options sel) then v else "").

(** The instance together with the three elements its methods read:
    [this.amountInput.value], [this.fromCurrency] and [this.toCurrency]. *)
Record widget := mkWidget {
  amountInput : string;
  fromCurrency : select;
  toCurrency : select;
  core : converter
}.

Definition set_core (s : converter) (w : widget) : widget :=
  mkWidget (amountInput w) (fromCurrency w) (toCurrency w) s.

(** A string is truthy when it is not empty. *)
Definition truthy_str (v : string) : bool := negb (String.eqb v "").

Inductive event :=
| ConvertClick
| SwapClick
| AmountInput
| FromChange
| ToChange
| AmountKeypress (key : string).

(** What the user does between two events: the three elements take new
    contents. *)
Inductive action :=
| Handle (e : event)
| Edit (amount : string) (from to : select).

Section Events.

(** [parseFloat] is the host's; the handlers are stated for any. *)
Variable parseFloat : string -> float.
Variable env : host.

(** [convertCurrency] reading its three inputs from the elements. *)
Definition convertCurrency_elements (w : widget) : result unit * converter :=
  convertCurrency env (parseFloat (amountInput w))
    (select_value (fromCurrency w)) (select_value (toCurrency w)) (core w).

(** [this.convertCurrency()] as the handlers and [swapCurrencies] call it:
    the promise is dropped, so a rejection reaches no one. *)
Definition convertCurrency_call (w : widget) : widget :=
  set_core (snd (convertCurrency_elements w)) w.

Definition swapCurrencies (w : widget) : widget :=
  let fromValue := select_value (fromCurrency w) in
  let toValue := select_value (toCurrency w) in
  let w' := mkWidget (amountInput w)
                     (select_set toValue (fromCurrency w))
                     (select_set fromValue (toCurrency w))
                     (core w) in
  if truthy_str (amountInput w') then convertCurrency_call w' else w'.

(** The listeners registered by [bindEvents]. *)
Definition handle (e : event) (w : widget) : widget :=
  match e with
  | ConvertClick => convertCurrency_call w
  | SwapClick => swapCurrencies w
  | AmountInput =>
      if truthy_str (amountInput w)
         && has_table (core w) (select_value (fromCurrency w))
      then convertCurrency_call w else w
  | FromChange | ToChange =>
      if truthy_str (amountInput w) then convertCurrency_call w else w
  | AmountKeypress key =>
      if String.eqb key "Enter" then convertCurrency_call w else w
  end.

Definition perform (w : widget) (a : action) : widget :=
  match a with
  | Handle e => handle e w
  | Edit amount from to => mkWidget amount from to (core w)
  end.

(** A session: events and edits in the order in which they happen. *)
Definition session (l : list action) (w : widget) : widget :=
  fold_left perform l w.

(** [new CurrencyConverter()]: [initElements], [bindEvents], and the
    startup load. *)
Definition construct (amount : string) (from to : select) : widget :=
  mkWidget amount from to (snd (loadExchangeRates env initElements)).

End Events.

(** What one call of the resolver may do to cache and request log: nothing,
    or, when there is no table for [from], one request for it and at most a
    new entry under [from]. *)
Definition resolver_effect (from : string) (s s' : converter) : Prop :=
  (exchangeRates s' = exchangeRates s /\ requests s' = requests s) \/
  (has_table s from = false /\
   requests s' = (requests s ++ [baseUrl +:+ from])%list /\
   (exchangeRates s' = exchangeRates s \/
    exists table, exchangeRates s' = <[from := table]> (exchangeRates s))).

(** What a session may do: the request log is extended by requests to the
    primary endpoint, each for a code that had no table, cache entries are
    added, and an entry that holds a table stays as it is. *)
Definition grows (s s' : converter) : Prop :=
  (exists l, requests s' = (requests s ++ l)%list /\
             Forall (fun url => exists code, url = baseUrl +:+ code /\
                                             has_table s code = false) l) /\
  dom (exchangeRates s) ⊆ dom (exchangeRates s') /\
  (forall base, has_table s base = true ->
                exchangeRates s' !! base = exchangeRates s !! base).

(** A stand-in for [parseFloat] that agrees with it on the strings the
    samples type: "100", "2.5" and the empty string. *)
Definition sampleParseFloat (v : string) : float :=
  if String.eqb v "100" then 100%float
  else if String.eqb v "2.5" then 2.5%float
  else nan.

Definition currencies : list string := ["USD"; "EUR"; "GBP"; "JPY"].

(** A widget after a startup without network, with 100 typed in and
    USD to EUR selected. *)
Definition sampleWidget : widget :=
  mkWidget "100" (mkSelect currencies "USD") (mkSelect currencies "EUR")
           Samples.afterOfflineStartup.

(** Every request is answered with an error status and an error body. *)
Definition refusing : host :=
  mkHost (fun _ _ =>
            FetchResolve (mkResponse false (Ok (VObj {[ "error" := VBool true ]}))))
         (fun _ => 0).

(** The USD table is served; every other request gets an error status. *)
Definition usdOnly : host :=
  mkHost (fun _ url =>
            if String.eqb url (baseUrl +:+ "USD")
            then Samples.respond true (Samples.wrapped [("EUR", 0.9); ("USD", 1)]%float)
            else FetchResolve (mkResponse false (Throw SyntaxError)))
         (fun _ => 0).

(** Two cached tables, neither of which lists the other's base. *)
Definition sparse : converter :=
  Samples.withRates {[ "USD" := Samples.table [("GBP", 0.73)]%float;
                       "EUR" := Samples.table [("GBP", 0.86)]%float ]}.

(** A cached USD table whose entry for EUR is [true]. *)
Definition oddEntry : converter :=
  Samples.withRates {[ "USD" := VObj {[ "EUR" := VBool true ]} ]}.

(** ** Calls of [getExchangeRate] that overlap *)

(** A call that found no table for [from] has issued its request and waits
    at [await fetch(...)]; [pending_outcome] is what the request settles
    with. *)
Record pending := mkPending {
  pending_from : string;
  pending_to : string;
  pending_outcome : fetch_outcome
}.

(** [getExchangeRate] from the point where the awaited fetch has settled:
    the rest of the [try] block, the [catch] block and the last line. *)
Definition getExchangeRate_resume (from to : string) (o : fetch_outcome) : M value :=
  early ← try_catch
            (response ← match o with
                        | FetchReject e => throw e
                        | FetchResolve r => ret r
                        end;
             data ← json response;
             storeRates from data;;
             ret None)
            (fun error =>
               r ← crossRate from to;
               match r with
               | Some rate => ret (Some rate)
               | None => throw error
               end);
  match early with
  | Some rate => ret rate
  | None => directOrInverse from to
  end.

Definition resume (s : converter) (p : pending) : converter :=
  snd (getExchangeRate_resume (pending_from p) (pending_to p) (pending_outcome p) s).

(** Pending calls resumed in the order in which their requests settle. *)
Definition resumeAll (ps : list pending) (s : converter) : converter :=
  fold_left resume ps s.

(** The completion a pending call brings to the cache, if its response
    has a body that parses. *)
Definition completionOf (p : pending) : option Completions.completion :=
  match pending_outcome p with
  | FetchResolve r =>
      match body r with
      | Ok data => Some (pending_from p, data)
      | Throw _ => None
      end
  | FetchReject _ => None
  end.

(** A USD table with a subnormal entry for EUR, and an EUR table that does
    not list USD. *)
Definition tinyEntry : converter :=
  Samples.withRates {[ "USD" := Samples.table [("USD", 1); ("EUR", 5e-324)]%float;
                       "EUR" := Samples.table [("EUR", 1)]%float ]}.

(** * Properties *)

(** ** Running a computation *)



Lemma catch_ok {A} (m : M A) h s a s' :
  m s = (Ok a, s') -> try_catch m h s = (Ok a, s').
Proof. intros H. unfold try_catch. now rewrite H. Qed.

Lemma catch_throw {A} (m : M A) h s e s' :
  m s = (Throw e, s') -> try_catch m h s = h e s'.
Proof. intros H. unfold try_catch. now rewrite H. Qed.

Lemma pair_fst_snd {A B} (p : A * B) a : fst p = a -> p = (a, snd p).
Proof. destruct p. simpl. now intros ->. Qed.

(** ** Doubles *)

Lemma ltb_leb (a b : float) :
  (a <? b)%float = true -> (a <=? b)%float = true.
Proof.
  rewrite FloatAxioms.ltb_spec, FloatAxioms.leb_spec. unfold SFltb, SFleb.
  now destruct (SFcompare (Prim2SF a) (Prim2SF b)) as [[]|].
Qed.

Lemma invalid_amount_rejected (a : float) :
  is_zero a = true \/ (a <? 0)%float = true \/ is_nan a = true ->
  falsy_num a || (a <=? 0)%float = true.
Proof.
  unfold falsy_num. intros [-> | [H | ->]].
  - reflexivity.
  - rewrite (ltb_leb _ _ H). apply orb_true_r.
  - now rewrite orb_true_r.
Qed.

Lemma positive_amount_accepted (a : float) :
  (0 <? a)%float = true -> falsy_num a || (a <=? 0)%float = false.
Proof.
  unfold falsy_num, is_zero, is_nan.
  rewrite FloatAxioms.ltb_spec, !FloatAxioms.eqb_spec, FloatAxioms.leb_spec.
  change (Prim2SF zero) with (S754_zero false).
  change (Prim2SF 0) with (S754_zero false).
  unfold SFltb, SFeqb, SFleb.
  destruct (Prim2SF a) as [sg|sg| |sg m e]; simpl; try discriminate.
  - destruct sg; [discriminate | reflexivity].
  - destruct sg; simpl; try discriminate.
    rewrite Z.compare_refl, Pos.compare_cont_refl. reflexivity.
Qed.


(** ** The cache and the tables *)

Lemma cacheGet_lookup s code v :
  exchangeRates s !! code = Some v -> cacheGet s code = v.
Proof. unfold cacheGet. now intros ->. Qed.

Lemma cacheGet_None s code :
  exchangeRates s !! code = None -> cacheGet s code = VUndefined.
Proof. unfold cacheGet. now intros ->. Qed.

Lemma has_table_object s code table :
  exchangeRates s !! code = Some (VObj table) -> has_table s code = true.
Proof. intros H. unfold has_table. now rewrite (cacheGet_lookup _ _ _ H). Qed.

Lemma Get_entry table code d :
  entry table code = Some d ->
  Get (VObj table) code = Ok d /\ truthy d = true.
Proof.
  unfold entry, Get. destruct (table !! code) as [d'|]; [|discriminate].
  simpl. destruct (truthy d') eqn:E; [|discriminate].
  intros [= <-]. now split.
Qed.

Lemma Get_no_entry table code :
  entry table code = None ->
  exists d, Get (VObj table) code = Ok d /\ truthy d = false.
Proof.
  unfold entry, Get. destruct (table !! code) as [d'|]; simpl.
  - destruct (truthy d') eqn:E; [discriminate|]. intros _. now exists d'.
  - intros _. now exists VUndefined.
Qed.

Lemma entry_lookup table code d :
  entry table code = Some d -> table !! code = Some d.
Proof.
  unfold entry. destruct (table !! code) as [d'|]; [|discriminate].
  destruct (truthy d'); now intros [= <-].
Qed.

Lemma ratesOrData_wrapper (o table : gmap string value) :
  ratesOrData (VObj (<["rates" := VObj table]> o)) = Ok (VObj table).
Proof. unfold ratesOrData, Get. now rewrite lookup_insert_eq. Qed.

Lemma ratesOrData_bare (o : gmap string value) :
  o !! "rates" = None -> ratesOrData (VObj o) = Ok (VObj o).
Proof. unfold ratesOrData, Get. now intros ->. Qed.

Lemma storeRates_run base data s :
  storeRates base data s =
    match ratesOrData data with
    | Ok table => (Ok tt, set_exchangeRates <[base := table]> s)
    | Throw e => (Throw e, s)
    end.
Proof.
  unfold storeRates. run_unfold. now destruct (ratesOrData data).
Qed.

(** ** [getExchangeRate] on a cached table *)

Lemma getExchangeRate_has_table env s from to :
  has_table s from = true ->
  getExchangeRate env from to s = directOrInverse from to s.
Proof.
  unfold has_table. intros H.
  unfold getExchangeRate. run_unfold. now rewrite H.
Qed.

Lemma directOrInverse_inverse s from to table :
  exchangeRates s !! from = Some (VObj table) ->
  entry table to = None ->
  directOrInverse from to s =
    match Get (cacheGet s to) from with
    | Ok back =>
        match ToNumber back with
        | Ok x => (Ok (VNum (1 / x)%float), s)
        | Throw e => (Throw e, s)
        end
    | Throw e => (Throw e, s)
    end.
Proof.
  intros Hf Hd. destruct (Get_no_entry _ _ Hd) as (d & HG & Ht).
  unfold directOrInverse. run_unfold.
  rewrite (cacheGet_lookup _ _ _ Hf), HG, Ht.
  destruct (Get (cacheGet s to) from) as [back|]; [|reflexivity].
  destruct (ToNumber back); reflexivity.
Qed.

Lemma getExchangeRate_direct env s from to table d :
  exchangeRates s !! from = Some (VObj table) ->
  entry table to = Some d ->
  getExchangeRate env from to s = (Ok d, s).
Proof.
  intros Hf Hd.
  rewrite (getExchangeRate_has_table env s from to (has_table_object _ _ _ Hf)).
  destruct (Get_entry _ _ _ Hd) as [HG Ht].
  unfold directOrInverse. run_unfold.
  now rewrite (cacheGet_lookup _ _ _ Hf), HG, Ht.
Qed.

Lemma getExchangeRate_inverse env s from to table table' x :
  exchangeRates s !! from = Some (VObj table) ->
  entry table to = None ->
  exchangeRates s !! to = Some (VObj table') ->
  table' !! from = Some (VNum x) ->
  getExchangeRate env from to s = (Ok (VNum (1 / x)%float), s).
Proof.
  intros Hf Hd Ht Hx.
  rewrite (getExchangeRate_has_table env s from to (has_table_object _ _ _ Hf)).
  rewrite (directOrInverse_inverse _ _ _ _ Hf Hd), (cacheGet_lookup _ _ _ Ht).
  unfold Get. now rewrite Hx.
Qed.

Lemma getExchangeRate_no_inverse env s from to table :
  exchangeRates s !! from = Some (VObj table) ->
  entry table to = None ->
  exchangeRates s !! to = None ->
  getExchangeRate env from to s = (Throw TypeError, s).
Proof.
  intros Hf Hd Ht.
  rewrite (getExchangeRate_has_table env s from to (has_table_object _ _ _ Hf)).
  now rewrite (directOrInverse_inverse _ _ _ _ Hf Hd), (cacheGet_None _ _ Ht).
Qed.

(** C2, as amended: with a table for [from] in the cache,
    [getExchangeRate] makes no request and leaves the state as it is; it
    returns [table[from][to]] when that entry is present and truthy.
    When the entry is absent or falsy (0, NaN, null, false) and [to] is
    not the name of a property inherited from [Object.prototype], it
    returns [1 / table[to][from]] if the cache has a table under [to] with
    a numeric entry for [from], and throws a TypeError if the cache has no
    entry under [to]. *)
Theorem getExchangeRate_cached_table
    (env : host) (s : converter) (from to : string) (table : gmap string value) :
  exchangeRates s !! from = Some (VObj table) ->
  (forall d, entry table to = Some d ->
     getExchangeRate env from to s = (Ok d, s)) /\
  (forall table' x,
     inherited to = false ->
     entry table to = None ->
     exchangeRates s !! to = Some (VObj table') ->
     table' !! from = Some (VNum x) ->
     getExchangeRate env from to s = (Ok (VNum (1 / x)%float), s)) /\
  (inherited to = false ->
   entry table to = None ->
   exchangeRates s !! to = None ->
   getExchangeRate env from to s = (Throw TypeError, s)).
Proof.
  intros Hf. split; [|split].
  - intros d. now apply getExchangeRate_direct.
  - intros table' x _. now apply getExchangeRate_inverse.
  - intros _. now apply getExchangeRate_no_inverse.
Qed.

(** ** [getExchangeRate] without a cached table *)

(** When the [try] block throws, the request was logged and nothing
    else changed. *)
Lemma fetchRates_throw env from s e :
  fst (fetchRates env from s) = Throw e ->
  fetchRates env from s = (Throw e, requested (baseUrl +:+ from) s).
Proof.
  unfold fetchRates, storeRates, requested. run_unfold.
  destruct (host_fetch env (requests s) (baseUrl +:+ from)) as [e'|r]; simpl.
  - now intros [= ->].
  - destruct (body r) as [data|e']; simpl.
    + destruct (ratesOrData data); simpl; [discriminate | now intros [= ->]].
    + now intros [= ->].
Qed.


Lemma fetchRates_unreachable env from s :
  unreachable env -> exists e, fst (fetchRates env from s) = Throw e.
Proof.
  intros H. destruct (H (requests s) (baseUrl +:+ from)) as [e He].
  exists e. unfold fetchRates. run_unfold. now rewrite He.
Qed.

Lemma getExchangeRate_fetch_throws env s from to e :
  has_table s from = false ->
  fst (fetchRates env from s) = Throw e ->
  getExchangeRate env from to s =
    match crossRate from to (requested (baseUrl +:+ from) s) with
    | (Ok (Some rate), s') => (Ok rate, s')
    | (Ok None, s') => (Throw e, s')
    | (Throw e', s') => (Throw e', s')
    end.
Proof.
  unfold has_table. intros Hn Hf.
  unfold getExchangeRate, mbind, M_bind, bind, cached, gets, try_catch.
  rewrite Hn. simpl. rewrite (fetchRates_throw _ _ _ _ Hf).
  destruct (crossRate from to _) as [[[rate|]|e'] s']; reflexivity.
Qed.

Lemma crossRate_numbers s from to usd a b :
  exchangeRates s !! "USD" = Some (VObj usd) ->
  usd !! from = Some (VNum a) ->
  usd !! to = Some (VNum b) ->
  crossRate from to s = (Ok (Some (VNum (b * (1 / a))%float)), s).
Proof.
  intros Hu Ha Hb.
  unfold crossRate. run_unfold.
  rewrite (cacheGet_lookup _ _ _ Hu). simpl. now rewrite Ha, Hb.
Qed.


Lemma crossRate_no_table s from to :
  has_table s "USD" = false ->
  crossRate from to s = (Ok None, s).
Proof.
  unfold has_table. intros Hu.
  unfold crossRate. run_unfold. now rewrite Hu.
Qed.

Lemma getExchangeRate_cross_numbers env s from to e usd a b :
  has_table s from = false ->
  fst (fetchRates env from s) = Throw e ->
  exchangeRates s !! "USD" = Some (VObj usd) ->
  usd !! from = Some (VNum a) ->
  usd !! to = Some (VNum b) ->
  getExchangeRate env from to s
    = (Ok (VNum (b * (1 / a))%float), requested (baseUrl +:+ from) s).
Proof.
  intros Hn Hf Hu Ha Hb.
  rewrite (getExchangeRate_fetch_throws _ _ _ _ _ Hn Hf).
  now rewrite (crossRate_numbers _ _ _ usd a b).
Qed.


Lemma getExchangeRate_rethrow env s from to e :
  has_table s from = false ->
  fst (fetchRates env from s) = Throw e ->
  has_table s "USD" = false ->
  getExchangeRate env from to s = (Throw e, requested (baseUrl +:+ from) s).
Proof.
  intros Hn Hf Hu.
  rewrite (getExchangeRate_fetch_throws _ _ _ _ _ Hn Hf).
  now rewrite crossRate_no_table.
Qed.

(** C1, as amended: with no table for [from] in the cache and the fetch of
    one failing, [getExchangeRate] returns
    [table[USD][to] * (1 / table[USD][from])] from the numeric entries of
    the cached USD table, having made the one failed request and left the
    cache as it was; without a cached USD table it rethrows the error of
    the fetch. *)
Theorem getExchangeRate_cross_rate
    (env : host) (s : converter) (from to : string) (e : error) :
  has_table s from = false ->
  fst (fetchRates env from s) = Throw e ->
  (forall usd a b,
     exchangeRates s !! "USD" = Some (VObj usd) ->
     usd !! from = Some (VNum a) ->
     usd !! to = Some (VNum b) ->
     fst (getExchangeRate env from to s) = Ok (VNum (b * (1 / a))%float) /\
     exchangeRates (snd (getExchangeRate env from to s)) = exchangeRates s /\
     requests (snd (getExchangeRate env from to s))
       = (requests s ++ [baseUrl +:+ from])%list) /\
  (has_table s "USD" = false ->
   fst (getExchangeRate env from to s) = Throw e /\
   exchangeRates (snd (getExchangeRate env from to s)) = exchangeRates s).
Proof.
  intros Hn Hf. split.
  - intros usd a b Hu Ha Hb.
    now rewrite (getExchangeRate_cross_numbers _ _ _ _ _ _ _ _ Hn Hf Hu Ha Hb).
  - intros Hu. now rewrite (getExchangeRate_rethrow _ _ _ _ _ Hn Hf Hu).
Qed.

(** ** [convertCurrency] *)

(** C6: an amount that is 0, negative or NaN makes [convertCurrency] show
    the input error and return; what it does is [showError] alone, so no
    request is made and the cache is neither read nor written. *)
Theorem convertCurrency_rejects_invalid_amount
    (env : host) (s : converter) (amount : float) (from to : string) :
  is_zero amount = true \/ (amount <? 0)%float = true \/ is_nan amount = true ->
  convertCurrency env amount from to s
    = showError "Please enter a valid amount" s /\
  fst (convertCurrency env amount from to s) = Ok tt /\
  resultContent_innerHTML (page (snd (convertCurrency env amount from to s)))
    = HtmlError "Please enter a valid amount" /\
  result_error (page (snd (convertCurrency env amount from to s))) = true /\
  requests (snd (convertCurrency env amount from to s)) = requests s /\
  exchangeRates (snd (convertCurrency env amount from to s)) = exchangeRates s.
Proof.
  intros H. unfold convertCurrency.
  rewrite (invalid_amount_rejected _ H). repeat split.
Qed.

(** C7: a positive amount converted from a currency to itself goes to
    [showResult] unchanged and with rate 1, the resolver is not called, no
    request is made and the cache is not touched; for a well-formed code
    the page then shows that amount and that rate. *)
Theorem convertCurrency_same_currency
    (env : host) (s : converter) (a : float) (c : string) :
  (0 <? a)%float = true ->
  convertCurrency env a c c s = showResult a c c (VNum 1) s /\
  requests (snd (convertCurrency env a c c s)) = requests s /\
  exchangeRates (snd (convertCurrency env a c c s)) = exchangeRates s /\
  (well_formed_currency_code c = true ->
   fst (convertCurrency env a c c s) = Ok tt /\
   resultContent_innerHTML (page (snd (convertCurrency env a c c s)))
     = HtmlResult a c c 1 /\
   result_error (page (snd (convertCurrency env a c c s))) = false).
Proof.
  intros H. unfold convertCurrency.
  rewrite (positive_amount_accepted _ H), String.eqb_refl.
  unfold showResult. run_unfold.
  destruct (well_formed_currency_code c); simpl; repeat split; try discriminate.
Qed.



(** ** Startup: [loadExchangeRates] *)

Lemma loadExchangeRates_catch_run e s :
  loadExchangeRates_catch e s =
    (Ok tt,
     set_exchangeRates <["USD" := VObj fallbackRates]>
       (set_page (fun d => mkElements false "block" true (result_show d)
                    (HtmlError "Failed to load exchange rates. Using fallback rates.")
                    (rateInfo_display d))
          (set_console (fun l => (l ++ [("Error loading exchange rates:", e)])%list) s))).
Proof. reflexivity. Qed.

Lemma loadExchangeRates_throw env s e :
  fst (loadExchangeRates_try env s) = Throw e ->
  loadExchangeRates env s
    = loadExchangeRates_catch e (snd (loadExchangeRates_try env s)).
Proof.
  intros H. unfold loadExchangeRates.
  now rewrite (catch_throw _ _ _ _ _ (pair_fst_snd _ _ H)).
Qed.

Lemma loadExchangeRates_ok env s :
  fst (loadExchangeRates_try env s) = Ok tt ->
  loadExchangeRates env s = loadExchangeRates_try env s.
Proof.
  intros H. unfold loadExchangeRates.
  rewrite (catch_ok _ _ _ _ _ (pair_fst_snd _ _ H)).
  symmetry. now apply pair_fst_snd.
Qed.

Lemma loadExchangeRates_try_run env s :
  loadExchangeRates_try env s =
    match loadUSD env s with
    | (Ok _, s1) => loadEUR env s1
    | (Throw e, s1) => (Throw e, s1)
    end.
Proof. reflexivity. Qed.

(** Whatever the [try] block did before it threw, the [catch] block ends
    with the fallback table under USD and the warning on the page. *)
Lemma loadExchangeRates_throw_usd env s e :
  fst (loadExchangeRates_try env s) = Throw e ->
  fst (loadExchangeRates env s) = Ok tt /\
  exchangeRates (snd (loadExchangeRates env s)) !! "USD"
    = Some (VObj fallbackRates) /\
  resultContent_innerHTML (page (snd (loadExchangeRates env s)))
    = HtmlError "Failed to load exchange rates. Using fallback rates.".
Proof.
  intros H. rewrite (loadExchangeRates_throw _ _ _ H), loadExchangeRates_catch_run.
  run_cbn. split; [reflexivity|]. split; [|reflexivity].
  apply lookup_insert_eq.
Qed.

Lemma fallbackRates_dom :
  dom fallbackRates
    = {[ "EUR"; "GBP"; "JPY"; "AUD"; "CAD"; "CHF"; "CNY"; "INR"; "TRY"; "USD" ]}.
Proof.
  unfold fallbackRates. cbn [list_to_map foldr uncurry].
  rewrite !dom_insert_L, dom_empty_L. set_solver.
Qed.

(** C5: when the [try] block of [loadExchangeRates] throws, the method
    still returns normally, the cache holds the fixed fallback table under
    USD, whose codes are exactly the ten listed, the page shows the warning,
    and from then on [getExchangeRate('USD', 'EUR')] returns 0.85 without a
    request. *)
Theorem loadExchangeRates_fallback (env : host) (s : converter) (e : error) :
  fst (loadExchangeRates_try env s) = Throw e ->
  fst (loadExchangeRates env s) = Ok tt /\
  exchangeRates (snd (loadExchangeRates env s)) !! "USD"
    = Some (VObj fallbackRates) /\
  dom fallbackRates
    = {[ "EUR"; "GBP"; "JPY"; "AUD"; "CAD"; "CHF"; "CNY"; "INR"; "TRY"; "USD" ]} /\
  resultContent_innerHTML (page (snd (loadExchangeRates env s)))
    = HtmlError "Failed to load exchange rates. Using fallback rates." /\
  (forall env',
     getExchangeRate env' "USD" "EUR" (snd (loadExchangeRates env s))
       = (Ok (VNum 0.85), snd (loadExchangeRates env s))).
Proof.
  intros H. destruct (loadExchangeRates_throw_usd _ _ _ H) as (H1 & H2 & H3).
  repeat split; auto using fallbackRates_dom.
  intros env'. now apply getExchangeRate_direct with fallbackRates.
Qed.

Lemma loadUSD_ok env s :
  fst (loadUSD env s) = Ok tt ->
  exists r data table,
    usdResponse env s r /\ body r = Ok data /\ ratesOrData data = Ok table /\
    exchangeRates (snd (loadUSD env s)) = <["USD" := table]> (exchangeRates s) /\
    page (snd (loadUSD env s)) = page s /\
    console (snd (loadUSD env s)) = console s.
Proof.
  unfold loadUSD, usdResponse, storeRates.
  run_unfold.
  destruct (host_fetch env (requests s) (baseUrl +:+ "USD")) as [e|r0];
    [discriminate|].
  destruct (ok r0) eqn:Hok; run_cbn.
  - destruct (body r0) as [data|] eqn:Hb; [|discriminate].
    destruct (ratesOrData data) as [table|] eqn:Hr; [|discriminate].
    intros _. exists r0, data, table. run_cbn. auto 10.
  - destruct (host_fetch env _ (fallbackUrl +:+ "?base=USD")) as [e|r] eqn:Hs;
      [discriminate|].
    destruct (body r) as [data|] eqn:Hb; [|discriminate].
    destruct (ratesOrData data) as [table|] eqn:Hr; [|discriminate].
    intros _. exists r, data, table. run_cbn.
    split; [right; exists r0; auto|auto].
Qed.

Lemma loadUSD_secondary env s r1 r2 data table :
  host_fetch env (requests s) (baseUrl +:+ "USD") = FetchResolve r1 ->
  ok r1 = false ->
  host_fetch env (requests s ++ [baseUrl +:+ "USD"])%list
             (fallbackUrl +:+ "?base=USD") = FetchResolve r2 ->
  body r2 = Ok data ->
  ratesOrData data = Ok table ->
  fst (loadUSD env s) = Ok tt /\
  exchangeRates (snd (loadUSD env s)) = <["USD" := table]> (exchangeRates s) /\
  page (snd (loadUSD env s)) = page s /\
  console (snd (loadUSD env s)) = console s.
Proof.
  intros H1 Hok H2 Hb Hr.
  unfold loadUSD, storeRates. run_unfold.
  rewrite H1, Hok. run_cbn. rewrite H2, Hb, Hr. run_cbn.
  repeat split.
Qed.

(** [loadEUR] writes no entry but EUR's and leaves page and console. *)
Lemma loadEUR_frame env s base :
  base <> "EUR" ->
  exchangeRates (snd (loadEUR env s)) !! base = exchangeRates s !! base /\
  page (snd (loadEUR env s)) = page s /\
  console (snd (loadEUR env s)) = console s.
Proof.
  intros Hne.
  unfold loadEUR, storeRates. run_unfold.
  destruct (host_fetch env (requests s) (baseUrl +:+ "EUR")) as [e|r]; [easy|].
  destruct (ok r); [|easy].
  destruct (body r) as [data|]; [|easy].
  destruct (ratesOrData data) as [table|]; [|easy].
  run_cbn. split; [|easy]. now apply lookup_insert_ne.
Qed.

(** C10: when the USD part of the startup has fetched and cached a table
    and the EUR part then throws, the [catch] block replaces that table
    with the fallback table and shows the warning. *)
Theorem loadExchangeRates_partial_failure (env : host) (s : converter) (e : error) :
  fst (loadUSD env s) = Ok tt ->
  fst (loadEUR env (snd (loadUSD env s))) = Throw e ->
  (exists r data table,
     usdResponse env s r /\ body r = Ok data /\ ratesOrData data = Ok table /\
     exchangeRates (snd (loadUSD env s)) !! "USD" = Some table) /\
  exchangeRates (snd (loadExchangeRates env s)) !! "USD"
    = Some (VObj fallbackRates) /\
  resultContent_innerHTML (page (snd (loadExchangeRates env s)))
    = HtmlError "Failed to load exchange rates. Using fallback rates.".
Proof.
  intros Hu He. split.
  - destruct (loadUSD_ok _ _ Hu) as (r & data & table & Hr & Hb & Ht & Hx & _).
    exists r, data, table. rewrite Hx. now rewrite lookup_insert_eq.
  - assert (Ht : fst (loadExchangeRates_try env s) = Throw e).
    { rewrite loadExchangeRates_try_run.
      destruct (loadUSD env s) as [[[]|e0] s1]; [exact He | discriminate]. }
    now destruct (loadExchangeRates_throw_usd env s e Ht) as (_ & H1 & H2).
Qed.

(** C4, as amended: when the primary endpoint answers the USD request with
    an error status, the secondary endpoint answers with a body that parses
    and holds a table (the [rates] member of a wrapper, or the body itself),
    and the EUR part that follows does not throw, then [loadExchangeRates]
    returns with that table cached under USD and with page and console
    untouched: the [catch] block and its fallback table were not used. *)
Theorem loadExchangeRates_secondary
    (env : host) (s : converter) (r1 r2 : response) (data table : value) :
  host_fetch env (requests s) (baseUrl +:+ "USD") = FetchResolve r1 ->
  ok r1 = false ->
  host_fetch env (requests s ++ [baseUrl +:+ "USD"])%list
             (fallbackUrl +:+ "?base=USD") = FetchResolve r2 ->
  body r2 = Ok data ->
  ratesOrData data = Ok table ->
  fst (loadEUR env (snd (loadUSD env s))) = Ok tt ->
  fst (loadExchangeRates env s) = Ok tt /\
  exchangeRates (snd (loadExchangeRates env s)) !! "USD" = Some table /\
  page (snd (loadExchangeRates env s)) = page s /\
  console (snd (loadExchangeRates env s)) = console s /\
  (forall o t, data = VObj (<["rates" := VObj t]> o) -> table = VObj t) /\
  (forall o, data = VObj o -> o !! "rates" = None -> table = data).
Proof.
  intros H1 Hok H2 Hb Hr He.
  destruct (loadUSD_secondary _ _ _ _ _ _ H1 Hok H2 Hb Hr) as (Hu & Hx & Hp & Hc).
  assert (Ht : loadExchangeRates_try env s = loadEUR env (snd (loadUSD env s))).
  { rewrite loadExchangeRates_try_run.
    destruct (loadUSD env s) as [[[]|e0] s1]; [reflexivity | discriminate]. }
  rewrite loadExchangeRates_ok by now rewrite Ht.
  rewrite Ht.
  destruct (loadEUR_frame env (snd (loadUSD env s)) "USD") as (Hf & Hp' & Hc');
    [discriminate|].
  rewrite Hf, Hp', Hc', Hx, Hp, Hc, lookup_insert_eq.
  repeat split; auto.
  - intros o t ->. rewrite ratesOrData_wrapper in Hr. congruence.
  - intros o -> Ho. rewrite (ratesOrData_bare _ Ho) in Hr. congruence.
Qed.

(** ** The cache under a sequence of fetch completions *)

Lemma complete_lookup s c base :
  exchangeRates (Completions.complete s c) !! base =
    match (if String.eqb c.1 base
           then match ratesOrData c.2 with
                | Ok table => Some table
                | Throw _ => None
                end
           else None) with
    | Some table => Some table
    | None => exchangeRates s !! base
    end.
Proof.
  unfold Completions.complete. rewrite storeRates_run.
  destruct (ratesOrData c.2) as [table|e]; cbn [snd].
  - cbn [exchangeRates set_exchangeRates].
    destruct (String.eqb_spec c.1 base) as [->|Hne].
    + apply lookup_insert_eq.
    + now apply lookup_insert_ne.
  - now destruct (String.eqb c.1 base).
Qed.

Lemma run_lookup cs s base :
  exchangeRates (Completions.run cs s) !! base =
    match Completions.lastFetched base cs with
    | Some table => Some table
    | None => exchangeRates s !! base
    end.
Proof.
  revert s. induction cs as [|c cs IH]; intros s; [reflexivity|].
  change (Completions.run (c :: cs) s)
    with (Completions.run cs (Completions.complete s c)).
  rewrite IH. cbn [Completions.lastFetched].
  destruct (Completions.lastFetched base cs); [reflexivity|].
  apply complete_lookup.
Qed.

Lemma lastFetched_snoc base cs c :
  Completions.lastFetched base (cs ++ [c]) =
    match (if String.eqb c.1 base
           then match ratesOrData c.2 with
                | Ok table => Some table
                | Throw _ => None
                end
           else None) with
    | Some table => Some table
    | None => Completions.lastFetched base cs
    end.
Proof.
  induction cs as [|c' cs IH]; cbn [app Completions.lastFetched].
  - now destruct (String.eqb c.1 base); [destruct (ratesOrData c.2)|].
  - rewrite IH.
    destruct (String.eqb c.1 base); [destruct (ratesOrData c.2)|]; reflexivity.
Qed.

(** ** Rates in both directions *)

Lemma getExchangeRate_offline env s from to a b :
  unreachable env ->
  exchangeRates s = {[ "USD" := VObj fallbackRates ]} ->
  fallbackRates !! from = Some (VNum a) ->
  entry fallbackRates to = Some (VNum b) ->
  fst (getExchangeRate env from to s) = Ok (VNum (offlineRate from a b)) /\
  exchangeRates (snd (getExchangeRate env from to s)) = exchangeRates s.
Proof.
  intros Henv Hs Ha Hb.
  assert (Hu : exchangeRates s !! "USD" = Some (VObj fallbackRates)).
  { rewrite Hs. apply lookup_singleton_eq. }
  unfold offlineRate. destruct (String.eqb_spec from "USD") as [->|Hne].
  - now rewrite (getExchangeRate_direct env s "USD" to _ _ Hu Hb).
  - assert (Hn : has_table s from = false).
    { unfold has_table. rewrite cacheGet_None; [reflexivity|].
      rewrite Hs. now apply lookup_singleton_ne. }
    destruct (fetchRates_unreachable env from s Henv) as [e He].
    now rewrite (getExchangeRate_cross_numbers env s from to e _ a b Hn He Hu Ha
                   (entry_lookup _ _ _ Hb)).
Qed.

Lemma fallbackRates_elem code :
  code ∈ dom fallbackRates ->
  exists a, (code, a) ∈ fallbackList.
Proof.
  rewrite fallbackRates_dom. unfold fallbackList. set_unfold.
  intros H.
  repeat match goal with H : _ \/ _ |- _ => destruct H end;
    subst; eexists; eauto 12.
Qed.

Lemma fallbackList_entry code a :
  (code, a) ∈ fallbackList ->
  fallbackRates !! code = Some (VNum a) /\
  entry fallbackRates code = Some (VNum a).
Proof.
  unfold fallbackList. set_unfold.
  intros H.
  repeat match goal with
         | H : _ \/ _ |- _ => destruct H
         | H : _ /\ _ |- _ => destruct H
         | H : False |- _ => destruct H
         | H : (_, _) = (_, _) |- _ => inversion H; clear H
         end;
    subst; split; reflexivity.
Qed.

Lemma fallbackList_reciprocal x a y b :
  (x, a) ∈ fallbackList -> (y, b) ∈ fallbackList ->
  reciprocal (offlineRate x a b) (offlineRate y b a) = true.
Proof.
  assert (H : forallb (fun p => forallb (fun q =>
                reciprocal (offlineRate p.1 p.2 q.2) (offlineRate q.1 q.2 p.2))
                fallbackList) fallbackList = true) by (vm_compute; reflexivity).
  rewrite forallb_forall in H. intros Hx Hy.
  apply list_elem_of_In in Hx, Hy.
  specialize (H _ Hx). rewrite forallb_forall in H. exact (H _ Hy).
Qed.

(** The rates of the fallback table.  With the fallback table the only
    cached table and every request rejected, for all codes x and y of that
    table the resolver returns a number for (x, y) and then for (y, x),
    leaves the cache as it is, and the product of the two doubles differs
    from 1 by at most 2^-52. *)
Theorem fallback_rates_reciprocal
    (env : host) (s : converter) (x y : string) :
  unreachable env ->
  exchangeRates s = {[ "USD" := VObj fallbackRates ]} ->
  x ∈ dom fallbackRates ->
  y ∈ dom fallbackRates ->
  exists r1 r2,
    fst (getExchangeRate env x y s) = Ok (VNum r1) /\
    exchangeRates (snd (getExchangeRate env x y s)) = exchangeRates s /\
    fst (getExchangeRate env y x (snd (getExchangeRate env x y s))) = Ok (VNum r2) /\
    reciprocal r1 r2 = true.
Proof.
  intros Henv Hs Hx Hy.
  destruct (fallbackRates_elem _ Hx) as [a Ha], (fallbackRates_elem _ Hy) as [b Hb].
  destruct (fallbackList_entry _ _ Ha) as [Ha1 Ha2], (fallbackList_entry _ _ Hb) as [Hb1 Hb2].
  destruct (getExchangeRate_offline env s x y a b Henv Hs Ha1 Hb2) as [H1 H2].
  assert (Hs' : exchangeRates (snd (getExchangeRate env x y s))
                = {[ "USD" := VObj fallbackRates ]}) by now rewrite H2.
  destruct (getExchangeRate_offline env _ y x b a Henv Hs' Hb1 Ha2) as [H3 _].
  exists (offlineRate x a b), (offlineRate y b a).
  auto using fallbackList_reciprocal.
Qed.

(** ** Instances *)

Lemma getExchangeRate_cross_rate_witness :
  has_table Samples.afterOfflineStartup "JPY" = false /\
  fst (getExchangeRate Samples.offline "JPY" "EUR" Samples.afterOfflineStartup)
    = Ok (VNum (0.85 * (1 / 110))%float).
Proof.
  split; [reflexivity|].
  destruct (getExchangeRate_cross_rate Samples.offline Samples.afterOfflineStartup
              "JPY" "EUR" (NetworkError "offline")) as [H _];
    [reflexivity | reflexivity |].
  apply (H fallbackRates 110%float 0.85%float); reflexivity.
Defined.

Lemma getExchangeRate_cached_table_witness :
  getExchangeRate Samples.offline "USD" "EUR" Samples.afterOfflineStartup
    = (Ok (VNum 0.85), Samples.afterOfflineStartup) /\
  getExchangeRate Samples.offline "USD" "EUR" Samples.zeroEntry
    = (Ok (VNum (1 / 1.25)%float), Samples.zeroEntry) /\
  getExchangeRate Samples.offline "USD" "ZZZ" Samples.afterOfflineStartup
    = (Throw TypeError, Samples.afterOfflineStartup).
Proof.
  split; [|split].
  - destruct (getExchangeRate_cached_table Samples.offline
                Samples.afterOfflineStartup "USD" "EUR" fallbackRates) as [H _];
      [reflexivity|].
    apply H. reflexivity.
  - destruct (getExchangeRate_cached_table Samples.offline Samples.zeroEntry
                "USD" "EUR" (list_to_map [("EUR", VNum 0)]))
      as (_ & H & _); [reflexivity|].
    apply (H (list_to_map [("USD", VNum 1.25)]) 1.25%float); reflexivity.
  - destruct (getExchangeRate_cached_table Samples.offline
                Samples.afterOfflineStartup "USD" "ZZZ" fallbackRates)
      as (_ & _ & H); [reflexivity|].
    apply H; reflexivity.
Defined.

Lemma unreachable_offline : unreachable Samples.offline.
Proof. intros l url. eexists. reflexivity. Defined.

Lemma fallback_rates_reciprocal_instance :
  exists r1 r2,
    fst (getExchangeRate Samples.offline "GBP" "JPY" Samples.afterOfflineStartup)
      = Ok (VNum r1) /\
    exchangeRates
      (snd (getExchangeRate Samples.offline "GBP" "JPY" Samples.afterOfflineStartup))
      = exchangeRates Samples.afterOfflineStartup /\
    fst (getExchangeRate Samples.offline "JPY" "GBP"
           (snd (getExchangeRate Samples.offline "GBP" "JPY"
                   Samples.afterOfflineStartup)))
      = Ok (VNum r2) /\
    reciprocal r1 r2 = true.
Proof.
  apply (fallback_rates_reciprocal Samples.offline Samples.afterOfflineStartup
           "GBP" "JPY").
  - exact unreachable_offline.
  - reflexivity.
  - apply elem_of_dom. eexists. reflexivity.
  - apply elem_of_dom. eexists. reflexivity.
Defined.

Lemma loadExchangeRates_secondary_witness :
  exchangeRates (snd (loadExchangeRates Samples.eurRefused initElements)) !! "USD"
    = Some (Samples.table [("EUR", 0.9); ("USD", 1)]%float).
Proof.
  apply (loadExchangeRates_secondary Samples.eurRefused initElements
           (mkResponse false (Throw SyntaxError))
           (mkResponse true (Ok (Samples.wrapped [("EUR", 0.9); ("USD", 1)]%float)))
           (Samples.wrapped [("EUR", 0.9); ("USD", 1)]%float)
           (Samples.table [("EUR", 0.9); ("USD", 1)]%float)); reflexivity.
Defined.

Lemma loadExchangeRates_fallback_witness :
  fst (loadExchangeRates_try Samples.offline initElements)
    = Throw (NetworkError "offline") /\
  getExchangeRate Samples.offline "USD" "EUR"
    (snd (loadExchangeRates Samples.offline initElements))
    = (Ok (VNum 0.85), snd (loadExchangeRates Samples.offline initElements)).
Proof.
  split; [reflexivity|].
  apply (loadExchangeRates_fallback Samples.offline initElements
           (NetworkError "offline")).
  reflexivity.
Defined.

Lemma convertCurrency_rejects_invalid_amount_witness :
  (-2.5 <? 0)%float = true /\
  convertCurrency Samples.offline (-2.5) "USD" "EUR" Samples.afterOfflineStartup
    = showError "Please enter a valid amount" Samples.afterOfflineStartup.
Proof.
  split; [reflexivity|].
  apply (convertCurrency_rejects_invalid_amount Samples.offline
           Samples.afterOfflineStartup (-2.5) "USD" "EUR").
  right. left. reflexivity.
Defined.

Lemma convertCurrency_same_currency_witness :
  (0 <? 100)%float = true /\
  resultContent_innerHTML
    (page (snd (convertCurrency Samples.offline 100 "EUR" "EUR" initElements)))
    = HtmlResult 100 "EUR" "EUR" 1.
Proof.
  split; [reflexivity|].
  apply (convertCurrency_same_currency Samples.offline initElements 100 "EUR");
    reflexivity.
Defined.


Lemma loadExchangeRates_partial_failure_witness :
  fst (loadUSD Samples.usdThenEurDown initElements) = Ok tt /\
  exchangeRates
    (snd (loadExchangeRates Samples.usdThenEurDown initElements)) !! "USD"
    = Some (VObj fallbackRates).
Proof.
  split; [reflexivity|].
  apply (loadExchangeRates_partial_failure Samples.usdThenEurDown initElements
           (NetworkError "unreachable")); reflexivity.
Defined.

(** ** Where the specification and the code part *)

(** C1 fails as stated.  After a startup without network the cache holds
    the fallback table only; the request for the JPY table is rejected;
    the fallback table lists JPY at 110 and GBP at 0.73.  The resolver
    returns [0.73 * (1 / 110)], which is not the double [0.73 / 110]. *)
Lemma getExchangeRate_cross_rate_counterexample :
  has_table Samples.afterOfflineStartup "JPY" = false /\
  fst (fetchRates Samples.offline "JPY" Samples.afterOfflineStartup)
    = Throw (NetworkError "offline") /\
  exchangeRates Samples.afterOfflineStartup !! "USD" = Some (VObj fallbackRates) /\
  fallbackRates !! "JPY" = Some (VNum 110) /\
  fallbackRates !! "GBP" = Some (VNum 0.73) /\
  fst (getExchangeRate Samples.offline "JPY" "GBP" Samples.afterOfflineStartup)
    = Ok (VNum (0.73 * (1 / 110))%float) /\
  (0.73 * (1 / 110) =? 0.73 / 110)%float = false.
Proof. repeat split. Qed.

(** C2 fails as stated.  The cached USD table has an entry for EUR, the
    number 0; the resolver does not return it but the inverse of the USD
    entry of the EUR table, 1 / 1.25. *)
Lemma getExchangeRate_cached_table_counterexample :
  exists table,
    exchangeRates Samples.zeroEntry !! "USD" = Some (VObj table) /\
    table !! "EUR" = Some (VNum 0) /\
    getExchangeRate Samples.offline "USD" "EUR" Samples.zeroEntry
      = (Ok (VNum (1 / 1.25)%float), Samples.zeroEntry) /\
    (1 / 1.25 =? 0)%float = false.
Proof. eexists. repeat split. Qed.


Lemma table_not_fallback :
  Samples.table [("EUR", 0.9); ("USD", 1)]%float <> VObj fallbackRates.
Proof.
  intros H. apply (f_equal (fun v => Get v "GBP")) in H. discriminate H.
Qed.

(** C4 fails as stated.  With the primary endpoint unreachable (the fetch
    is rejected) the secondary endpoint, which would answer, is never
    asked: one request is made and the cache ends with the fallback table.
    With the primary endpoint answering an error status and the secondary
    one answering, a rejected EUR request afterwards still ends with the
    fallback table in place of the secondary endpoint's. *)
Lemma loadExchangeRates_secondary_counterexample :
  (host_fetch Samples.primaryDown [baseUrl +:+ "USD"] (fallbackUrl +:+ "?base=USD")
     = Samples.respond true (Samples.wrapped [("EUR", 0.9); ("USD", 1)]%float) /\
   requests (snd (loadExchangeRates Samples.primaryDown initElements))
     = [baseUrl +:+ "USD"] /\
   exchangeRates (snd (loadExchangeRates Samples.primaryDown initElements)) !! "USD"
     = Some (VObj fallbackRates)) /\
  (requests (snd (loadExchangeRates Samples.eurDown initElements))
     = [baseUrl +:+ "USD"; fallbackUrl +:+ "?base=USD"; baseUrl +:+ "EUR"] /\
   exchangeRates (snd (loadUSD Samples.eurDown initElements)) !! "USD"
     = Some (Samples.table [("EUR", 0.9); ("USD", 1)]%float) /\
   exchangeRates (snd (loadExchangeRates Samples.eurDown initElements)) !! "USD"
     = Some (VObj fallbackRates)) /\
  Samples.table [("EUR", 0.9); ("USD", 1)]%float <> VObj fallbackRates.
Proof. repeat split. apply table_not_fallback. Qed.


(** * Further properties of the methods *)

(** ** The amount test, once more *)

Lemma amount_check (a : float) :
  falsy_num a || (a <=? 0)%float = negb (0 <? a)%float.
Proof.
  unfold falsy_num, is_zero, is_nan.
  rewrite FloatAxioms.ltb_spec, !FloatAxioms.eqb_spec, FloatAxioms.leb_spec.
  change (Prim2SF zero) with (S754_zero false).
  change (Prim2SF 0) with (S754_zero false).
  unfold SFltb, SFeqb, SFleb.
  destruct (Prim2SF a) as [sg|sg| |sg m e]; simpl; try reflexivity.
  - now destruct sg.
  - destruct sg; simpl; now rewrite Z.compare_refl, Pos.compare_cont_refl.
Qed.

Lemma amount_refused (a : float) :
  (0 <? a)%float = false -> falsy_num a || (a <=? 0)%float = true.
Proof. intros H. now rewrite amount_check, H. Qed.

(** ** What the resolver does to the state *)

Lemma directOrInverse_state from to s : snd (directOrInverse from to s) = s.
Proof.
  unfold directOrInverse. run_unfold.
  destruct (Get (cacheGet s from) to) as [d|]; [|reflexivity].
  destruct (truthy d); [reflexivity|].
  destruct (Get (cacheGet s to) from) as [back|]; [|reflexivity].
  now destruct (ToNumber back).
Qed.

Lemma crossRate_state from to s : snd (crossRate from to s) = s.
Proof.
  unfold crossRate. run_unfold.
  destruct (truthy (cacheGet s "USD")); [|reflexivity].
  destruct (Get (cacheGet s "USD") from) as [a|]; [|reflexivity].
  destruct (ToNumber a); [|reflexivity].
  destruct (Get (cacheGet s "USD") to) as [b|]; [|reflexivity].
  now destruct (ToNumber b).
Qed.

Lemma fetchRates_resolve env from s r data table :
  host_fetch env (requests s) (baseUrl +:+ from) = FetchResolve r ->
  body r = Ok data ->
  ratesOrData data = Ok table ->
  fetchRates env from s
    = (Ok tt, set_exchangeRates <[from := table]> (requested (baseUrl +:+ from) s)).
Proof.
  intros Hf Hb Hr. unfold fetchRates, storeRates, requested. run_unfold.
  now rewrite Hf, Hb, Hr.
Qed.

Lemma fetchRates_ok env from s :
  fst (fetchRates env from s) = Ok tt ->
  exists r data table,
    host_fetch env (requests s) (baseUrl +:+ from) = FetchResolve r /\
    body r = Ok data /\ ratesOrData data = Ok table.
Proof.
  unfold fetchRates, storeRates. run_unfold.
  destruct (host_fetch env (requests s) (baseUrl +:+ from)) as [e|r];
    [discriminate|].
  destruct (body r) as [data|] eqn:Hb; [|discriminate].
  destruct (ratesOrData data) as [table|] eqn:Hr; [|discriminate].
  intros _. now exists r, data, table.
Qed.

Lemma getExchangeRate_fetched env s from to s1 :
  has_table s from = false ->
  fetchRates env from s = (Ok tt, s1) ->
  getExchangeRate env from to s = directOrInverse from to s1.
Proof.
  unfold has_table. intros Hn Hf.
  unfold getExchangeRate, mbind, M_bind, bind, cached, gets, try_catch, mret,
    M_ret, ret.
  rewrite Hn. simpl. now rewrite Hf.
Qed.

Lemma getExchangeRate_effect env s from to :
  resolver_effect from s (snd (getExchangeRate env from to s)).
Proof.
  destruct (has_table s from) eqn:Hn.
  - left. rewrite (getExchangeRate_has_table _ _ _ _ Hn), directOrInverse_state.
    now split.
  - right. split; [exact Hn|].
    destruct (fst (fetchRates env from s)) as [[]|e] eqn:Hf.
    + destruct (fetchRates_ok _ _ _ Hf) as (r & data & table & H1 & H2 & H3).
      rewrite (getExchangeRate_fetched _ _ _ _ _ Hn
                 (fetchRates_resolve _ _ _ _ _ _ H1 H2 H3)).
      rewrite directOrInverse_state. split; [reflexivity|].
      right. now exists table.
    + rewrite (getExchangeRate_fetch_throws _ _ _ _ _ Hn Hf).
      pose proof (crossRate_state from to (requested (baseUrl +:+ from) s)) as Hc.
      destruct (crossRate from to _) as [[[rate|]|e'] s']; cbn [snd] in *;
        subst s'; (split; [reflexivity | now left]).
Qed.

Lemma resolver_effect_cached from s s' :
  has_table s from = true ->
  resolver_effect from s s' ->
  exchangeRates s' = exchangeRates s /\ requests s' = requests s.
Proof. intros Hn [H | (Hf & _)]; [exact H | congruence]. Qed.

Lemma resolver_effect_other from s s' base :
  base <> from ->
  resolver_effect from s s' ->
  exchangeRates s' !! base = exchangeRates s !! base.
Proof.
  intros Hne [[-> _] | (_ & _ & [-> | [table ->]])]; try reflexivity.
  now apply lookup_insert_ne.
Qed.

(** X1: a call of [getExchangeRate] leaves every entry of the cache other
    than the one of [from] as it is, and adds to the request log either
    nothing or the one request for the table of [from]. *)
Theorem getExchangeRate_frame (env : host) (s : converter) (from to : string) :
  (forall base, base <> from ->
     exchangeRates (snd (getExchangeRate env from to s)) !! base
       = exchangeRates s !! base) /\
  (requests (snd (getExchangeRate env from to s)) = requests s \/
   requests (snd (getExchangeRate env from to s))
     = (requests s ++ [baseUrl +:+ from])%list).
Proof.
  pose proof (getExchangeRate_effect env s from to) as H. split.
  - intros base Hne. now apply resolver_effect_other with from.
  - destruct H as [[_ ->] | (_ & -> & _)]; auto.
Qed.

(** X2: [getExchangeRate] does not look at the status of the response.
    With no table for [from] cached, whatever body parses is stored under
    [from], be the status ok or not, and the rate is then read from the
    cache as updated. *)
Theorem getExchangeRate_ignores_status
    (env : host) (s : converter) (from to : string)
    (r : response) (data table : value) :
  has_table s from = false ->
  host_fetch env (requests s) (baseUrl +:+ from) = FetchResolve r ->
  body r = Ok data ->
  ratesOrData data = Ok table ->
  getExchangeRate env from to s
    = directOrInverse from to
        (set_exchangeRates <[from := table]> (requested (baseUrl +:+ from) s)) /\
  exchangeRates (snd (getExchangeRate env from to s))
    = <[from := table]> (exchangeRates s).
Proof.
  intros Hn Hf Hb Hr.
  rewrite (getExchangeRate_fetched _ _ _ _ _ Hn
             (fetchRates_resolve _ _ _ _ _ _ Hf Hb Hr)).
  split; [reflexivity|]. now rewrite directOrInverse_state.
Qed.

(** X3: a table is fetched once.  After a call that fetched and stored a
    truthy table for [from], any further call for [from] makes no request
    and leaves the state as it is. *)
Theorem getExchangeRate_fetches_once
    (env : host) (s : converter) (from to to' : string)
    (r : response) (data table : value) :
  has_table s from = false ->
  host_fetch env (requests s) (baseUrl +:+ from) = FetchResolve r ->
  body r = Ok data ->
  ratesOrData data = Ok table ->
  truthy table = true ->
  requests (snd (getExchangeRate env from to s))
    = (requests s ++ [baseUrl +:+ from])%list /\
  snd (getExchangeRate env from to' (snd (getExchangeRate env from to s)))
    = snd (getExchangeRate env from to s).
Proof.
  intros Hn Hf Hb Hr Ht.
  rewrite (getExchangeRate_fetched _ _ _ _ _ Hn
             (fetchRates_resolve _ _ _ _ _ _ Hf Hb Hr)).
  rewrite directOrInverse_state. split; [reflexivity|].
  rewrite getExchangeRate_has_table; [apply directOrInverse_state|].
  unfold has_table, cacheGet. cbn [exchangeRates set_exchangeRates requested set_requests].
  now rewrite lookup_insert_eq.
Qed.

(** X4: with object tables cached for both codes, a pair that neither
    table lists raises no error: the inverse of a missing entry is NaN, and
    the inverse of an entry 0 is Infinity. *)
Theorem getExchangeRate_silent_nan
    (env : host) (s : converter) (from to : string)
    (table table' : gmap string value) :
  exchangeRates s !! from = Some (VObj table) ->
  entry table to = None ->
  exchangeRates s !! to = Some (VObj table') ->
  (table' !! from = None ->
   getExchangeRate env from to s = (Ok (VNum nan), s)) /\
  (table' !! from = Some (VNum 0) ->
   getExchangeRate env from to s = (Ok (VNum infinity), s)).
Proof.
  intros Hf Hd Ht.
  rewrite (getExchangeRate_has_table env s from to (has_table_object _ _ _ Hf)).
  rewrite (directOrInverse_inverse _ _ _ _ Hf Hd), (cacheGet_lookup _ _ _ Ht).
  unfold Get. split; intros ->; reflexivity.
Qed.

(** ** What [convertCurrency] does to page, cache and log *)

Lemma showResult_run a from to rate s :
  showResult a from to rate s =
    let s1 := set_page (fun d => mkElements false "block" false true
                                   (resultContent_innerHTML d) (rateInfo_display d)) s in
    if well_formed_currency_code to then
      match rate with
      | VNum r =>
          (Ok tt,
           set_page (fun d => mkElements (loading_show d) (resultContent_display d)
                                (result_error d) (result_show d)
                                (HtmlResult a from to r) "block") s1)
      | _ => (Throw TypeError, s1)
      end
    else (Throw RangeError, s1).
Proof.
  unfold showResult. run_unfold.
  destruct (well_formed_currency_code to); [|reflexivity].
  now destruct rate.
Qed.

(** The [catch] block of [convertCurrency]. *)
Lemma conversion_failed_run e s :
  (console_error "Conversion error:" e;;
   showError "Conversion failed. Please try again.") s
  = (Ok tt,
     set_page (fun d => mkElements false "block" true (result_show d)
                          (HtmlError "Conversion failed. Please try again.")
                          (rateInfo_display d))
       (set_console (fun l => (l ++ [("Conversion error:", e)])%list) s)).
Proof. reflexivity. Qed.

Lemma convertCurrency_run env a from to s :
  convertCurrency env a from to s =
    if negb (0 <? a)%float then showError "Please enter a valid amount" s
    else if String.eqb from to then showResult a from to (VNum 1) s
    else
      match getExchangeRate env from to (snd (showLoading s)) with
      | (Ok rate, s2) =>
          match ToNumber rate with
          | Ok x =>
              match showResult (a * x)%float from to rate s2 with
              | (Ok u, s3) => (Ok u, s3)
              | (Throw e, s3) =>
                  (console_error "Conversion error:" e;;
                   showError "Conversion failed. Please try again.") s3
              end
          | Throw e =>
              (console_error "Conversion error:" e;;
               showError "Conversion failed. Please try again.") s2
          end
      | (Throw e, s2) =>
          (console_error "Conversion error:" e;;
           showError "Conversion failed. Please try again.") s2
      end.
Proof.
  unfold convertCurrency. rewrite amount_check.
  destruct (negb (0 <? a)%float); [reflexivity|].
  destruct (String.eqb from to); [reflexivity|].
  unfold try_catch at 1.
  change ((showLoading;; ?k) s) with (k (snd (showLoading s))).
  unfold mbind at 1, M_bind at 1, bind at 1. 
  destruct (getExchangeRate env from to (snd (showLoading s))) as [[rate|e] s2];
    [|reflexivity].
  unfold mbind at 1, M_bind at 1, bind at 1, lift at 1.
  destruct (ToNumber rate) as [x|e]; reflexivity.
Qed.

Ltac conversion_cases env a from to s :=
  rewrite (convertCurrency_run env a from to s);
  destruct (0 <? a)%float eqn:Hamount; cbn [negb];
  [ destruct (String.eqb_spec from to) as [Heq|Hneq];
    [ rewrite showResult_run; cbv zeta;
      destruct (well_formed_currency_code to) eqn:Hcode
    | let Hres := fresh "Hres" in
      pose proof (getExchangeRate_effect env (snd (showLoading s)) from to) as Hres;
      destruct (getExchangeRate env from to (snd (showLoading s)))
        as [[rate|err] s2];
      [ destruct (ToNumber rate) as [num|err] eqn:Hnum;
        [ rewrite showResult_run; cbv zeta;
          destruct (well_formed_currency_code to) eqn:Hcode;
          [ destruct rate | ]
        | ]
      | ];
      rewrite ?conversion_failed_run ]
  | ].

(** X5: [convertCurrency] rejects in one case only: a positive amount, the
    same code on both sides, and that code not three letters; the error is
    then the RangeError of the currency formatter.  With two different
    codes every error is caught. *)
Theorem convertCurrency_throws_iff
    (env : host) (s : converter) (a : float) (from to : string) (e : error) :
  fst (convertCurrency env a from to s) = Throw e <->
  (0 <? a)%float = true /\ from = to /\
  well_formed_currency_code to = false /\ e = RangeError.
Proof.
  conversion_cases env a from to s; cbn [fst snd]; split;
    try discriminate; try (intros (? & ? & ? & ?); congruence).
  intros [= <-]. auto.
Qed.

Lemma convertCurrency_page_end env a from to s :
  loading_show (page (snd (convertCurrency env a from to s))) = false /\
  resultContent_display (page (snd (convertCurrency env a from to s))) = "block".
Proof.
  conversion_cases env a from to s; split; reflexivity.
Qed.

(** X6: however a conversion ends, the loading indicator is hidden and the
    result area is displayed. *)
Theorem convertCurrency_hides_loading
    (env : host) (s : converter) (a : float) (from to : string) :
  loading_show (page (snd (convertCurrency env a from to s))) = false /\
  resultContent_display (page (snd (convertCurrency env a from to s))) = "block".
Proof. apply convertCurrency_page_end. Qed.

(** X7: the page never shows a result under the error class, nor a message
    without it: after a conversion between two different codes the page
    either shows a result with the error class off, or one of the two
    messages with the error class on. *)
Theorem convertCurrency_result_or_message
    (env : host) (s : converter) (a : float) (from to : string) :
  from <> to ->
  (exists amount rate,
     resultContent_innerHTML (page (snd (convertCurrency env a from to s)))
       = HtmlResult amount from to rate /\
     result_error (page (snd (convertCurrency env a from to s))) = false) \/
  (exists message,
     resultContent_innerHTML (page (snd (convertCurrency env a from to s)))
       = HtmlError message /\
     result_error (page (snd (convertCurrency env a from to s))) = true /\
     (message = "Please enter a valid amount" \/
      message = "Conversion failed. Please try again.")).
Proof.
  intros Hne.
  conversion_cases env a from to s; try contradiction;
    try (left; do 2 eexists; split; reflexivity);
    right; eexists; (split; [reflexivity|]); split; auto.
Qed.

(** X8: a target code that is not three letters always ends a conversion
    between different codes in the generic failure message, whether or not
    a rate was found. *)
Theorem convertCurrency_malformed_target
    (env : host) (s : converter) (a : float) (from to : string) :
  (0 <? a)%float = true ->
  from <> to ->
  well_formed_currency_code to = false ->
  fst (convertCurrency env a from to s) = Ok tt /\
  resultContent_innerHTML (page (snd (convertCurrency env a from to s)))
    = HtmlError "Conversion failed. Please try again." /\
  result_error (page (snd (convertCurrency env a from to s))) = true.
Proof.
  intros Ha Hne Hw.
  conversion_cases env a from to s; try contradiction; try congruence;
    repeat split.
Qed.

Lemma resolver_effect_store from s s1 s2 s' :
  exchangeRates s1 = exchangeRates s -> requests s1 = requests s ->
  resolver_effect from s1 s2 ->
  exchangeRates s' = exchangeRates s2 -> requests s' = requests s2 ->
  resolver_effect from s s'.
Proof.
  intros Hx Hr H Hx' Hr'. unfold resolver_effect, has_table, cacheGet in *.
  rewrite Hx, Hr in H. rewrite Hx', Hr'. exact H.
Qed.

Lemma resolver_effect_refl from s s' :
  exchangeRates s' = exchangeRates s -> requests s' = requests s ->
  resolver_effect from s s'.
Proof. intros; left; now split. Qed.

Lemma convertCurrency_effect env a from to s :
  resolver_effect from s (snd (convertCurrency env a from to s)).
Proof.
  conversion_cases env a from to s;
    try (apply resolver_effect_refl; reflexivity);
    (eapply resolver_effect_store; [| |exact Hres| |]; reflexivity).
Qed.

(** X9: a conversion from a currency whose table is cached makes no
    request and leaves the cache as it is; any conversion leaves the
    entries of all other currencies as they are. *)
Theorem convertCurrency_frame
    (env : host) (s : converter) (a : float) (from to : string) :
  (has_table s from = true ->
   requests (snd (convertCurrency env a from to s)) = requests s /\
   exchangeRates (snd (convertCurrency env a from to s)) = exchangeRates s) /\
  (forall base, base <> from ->
     exchangeRates (snd (convertCurrency env a from to s)) !! base
       = exchangeRates s !! base).
Proof.
  pose proof (convertCurrency_effect env a from to s) as H. split.
  - intros Hn. now destruct (resolver_effect_cached _ _ _ Hn H).
  - intros base Hne. now apply resolver_effect_other with from.
Qed.

(** X10: with a positive amount, two different codes, a cached table for
    [from] whose entry for [to] is a truthy number r, and a three-letter
    target code, the page shows the amount times r at rate r; nothing is
    requested and nothing logged. *)
Theorem convertCurrency_converts
    (env : host) (s : converter) (a r : float) (from to : string)
    (table : gmap string value) :
  (0 <? a)%float = true ->
  from <> to ->
  exchangeRates s !! from = Some (VObj table) ->
  entry table to = Some (VNum r) ->
  well_formed_currency_code to = true ->
  fst (convertCurrency env a from to s) = Ok tt /\
  page (snd (convertCurrency env a from to s))
    = mkElements false "block" false true
        (HtmlResult (a * r)%float from to r) "block" /\
  requests (snd (convertCurrency env a from to s)) = requests s /\
  exchangeRates (snd (convertCurrency env a from to s)) = exchangeRates s /\
  console (snd (convertCurrency env a from to s)) = console s.
Proof.
  intros Ha Hne Hf Hd Hw.
  rewrite (convertCurrency_run env a from to s), Ha.
  apply String.eqb_neq in Hne. rewrite Hne. cbn [negb].
  rewrite (getExchangeRate_direct env (snd (showLoading s)) from to table _ Hf Hd).
  cbn [ToNumber]. rewrite showResult_run, Hw. repeat split.
Qed.

(** X11: a cached entry that is truthy but not a number (an object, or
    [true]) is returned by the resolver as it is, and the conversion then
    fails on [rate.toFixed]: the TypeError is logged and the generic
    message shown. *)
Theorem convertCurrency_entry_not_a_number
    (env : host) (s : converter) (a : float) (from to : string)
    (table : gmap string value) (d : value) :
  (0 <? a)%float = true ->
  from <> to ->
  exchangeRates s !! from = Some (VObj table) ->
  entry table to = Some d ->
  (forall r, d <> VNum r) ->
  well_formed_currency_code to = true ->
  getExchangeRate env from to s = (Ok d, s) /\
  resultContent_innerHTML (page (snd (convertCurrency env a from to s)))
    = HtmlError "Conversion failed. Please try again." /\
  console (snd (convertCurrency env a from to s))
    = (console s ++ [("Conversion error:", TypeError)])%list.
Proof.
  intros Ha Hne Hf Hd Hnum Hw.
  split; [now apply getExchangeRate_direct with table|].
  rewrite (convertCurrency_run env a from to s), Ha.
  apply String.eqb_neq in Hne. rewrite Hne. cbn [negb].
  rewrite (getExchangeRate_direct env (snd (showLoading s)) from to table _ Hf Hd).
  destruct d as [| |b|r|o]; cbn [ToNumber];
    try (rewrite showResult_run, Hw; split; reflexivity).
  - now destruct (Hnum r).
  - destruct (decide _); [split; reflexivity|].
    rewrite showResult_run, Hw. split; reflexivity.
Qed.

(** X12: a same-currency conversion with a code that is not three letters
    rejects after the page was prepared for a result: the error class is
    off and the result box shown, while markup and rate line are those of
    before; no request is made. *)
Theorem convertCurrency_same_malformed
    (env : host) (s : converter) (a : float) (c : string) :
  (0 <? a)%float = true ->
  well_formed_currency_code c = false ->
  fst (convertCurrency env a c c s) = Throw RangeError /\
  page (snd (convertCurrency env a c c s))
    = mkElements false "block" false true
        (resultContent_innerHTML (page s)) (rateInfo_display (page s)) /\
  requests (snd (convertCurrency env a c c s)) = requests s /\
  console (snd (convertCurrency env a c c s)) = console s.
Proof.
  intros Ha Hw.
  rewrite (convertCurrency_run env a c c s), Ha, String.eqb_refl.
  cbn [negb]. rewrite showResult_run, Hw. repeat split.
Qed.

(** ** Startup, beyond the fallback *)

Lemma loadUSD_requests env s :
  requests (snd (loadUSD env s)) = (requests s ++ [baseUrl +:+ "USD"])%list \/
  (requests (snd (loadUSD env s))
     = (requests s ++ [baseUrl +:+ "USD"; fallbackUrl +:+ "?base=USD"])%list /\
   exists r0, host_fetch env (requests s) (baseUrl +:+ "USD") = FetchResolve r0 /\
              ok r0 = false).
Proof.
  unfold loadUSD, storeRates. run_unfold.
  destruct (host_fetch env (requests s) (baseUrl +:+ "USD")) as [e|r0] eqn:H0;
    [now left|].
  destruct (ok r0) eqn:Hok; run_cbn.
  - left. destruct (body r0) as [data|]; [|reflexivity].
    now destruct (ratesOrData data).
  - right. split; [|now exists r0].
    destruct (host_fetch env _ (fallbackUrl +:+ "?base=USD")) as [e|r]; run_cbn;
      [now rewrite <- app_assoc|].
    destruct (body r) as [data|]; [|run_cbn; now rewrite <- app_assoc].
    destruct (ratesOrData data); run_cbn; now rewrite <- app_assoc.
Qed.

Lemma loadEUR_requests env s :
  requests (snd (loadEUR env s)) = (requests s ++ [baseUrl +:+ "EUR"])%list.
Proof.
  unfold loadEUR, storeRates. run_unfold.
  destruct (host_fetch env (requests s) (baseUrl +:+ "EUR")) as [e|r];
    [reflexivity|].
  destruct (ok r); [|reflexivity].
  destruct (body r) as [data|]; [|reflexivity].
  now destruct (ratesOrData data).
Qed.

Lemma loadUSD_throw env s e :
  fst (loadUSD env s) = Throw e ->
  exchangeRates (snd (loadUSD env s)) = exchangeRates s /\
  lastUpdate (snd (loadUSD env s)) = lastUpdate s /\
  page (snd (loadUSD env s)) = page s /\
  console (snd (loadUSD env s)) = console s.
Proof.
  unfold loadUSD, storeRates. run_unfold.
  destruct (host_fetch env (requests s) (baseUrl +:+ "USD")) as [e0|r0];
    [easy|].
  destruct (ok r0); run_cbn.
  - destruct (body r0) as [data|]; [|easy].
    now destruct (ratesOrData data).
  - destruct (host_fetch env _ (fallbackUrl +:+ "?base=USD")) as [e0|r]; [easy|].
    destruct (body r) as [data|]; [|easy].
    now destruct (ratesOrData data).
Qed.

Lemma loadExchangeRates_cases env s :
  (fst (loadExchangeRates_try env s) = Ok tt /\
   loadExchangeRates env s = loadExchangeRates_try env s) \/
  (exists e, fst (loadExchangeRates_try env s) = Throw e /\
             loadExchangeRates env s
               = loadExchangeRates_catch e (snd (loadExchangeRates_try env s))).
Proof.
  destruct (fst (loadExchangeRates_try env s)) as [[]|e] eqn:H.
  - left. split; [reflexivity|]. now apply loadExchangeRates_ok.
  - right. exists e. split; [reflexivity|]. now apply loadExchangeRates_throw.
Qed.

Lemma loadExchangeRates_try_requests env s :
  exists l,
    requests (snd (loadExchangeRates_try env s))
      = (requests s ++ (baseUrl +:+ "USD") :: l)%list /\
    (l = [] \/ l = [fallbackUrl +:+ "?base=USD"] \/ l = [baseUrl +:+ "EUR"] \/
     l = [fallbackUrl +:+ "?base=USD"; baseUrl +:+ "EUR"]) /\
    (fallbackUrl +:+ "?base=USD" ∈ l ->
     exists r0, host_fetch env (requests s) (baseUrl +:+ "USD") = FetchResolve r0 /\
                ok r0 = false).
Proof.
  rewrite loadExchangeRates_try_run.
  pose proof (loadUSD_requests env s) as Hu.
  pose proof (loadEUR_requests env (snd (loadUSD env s))) as He.
  destruct (loadUSD env s) as [[[]|e] s1]; cbn [snd] in *.
  - rewrite He. destruct Hu as [-> | [-> Hr0]].
    + exists [baseUrl +:+ "EUR"]. rewrite <- app_assoc. split; [reflexivity|].
      split; [auto|]. intros H. set_unfold in H. destruct H as [H|[]].
      discriminate H.
    + exists [fallbackUrl +:+ "?base=USD"; baseUrl +:+ "EUR"].
      rewrite <- app_assoc. split; [reflexivity|]. split; [auto 6|]. now intros _.
  - destruct Hu as [-> | [-> Hr0]].
    + exists []. split; [reflexivity|]. split; [auto|].
      intros H. now apply elem_of_nil in H.
    + exists [fallbackUrl +:+ "?base=USD"]. split; [reflexivity|].
      split; [auto|]. now intros _.
Qed.

Lemma loadExchangeRates_usd_entry env s :
  fst (loadExchangeRates env s) = Ok tt /\
  is_Some (exchangeRates (snd (loadExchangeRates env s)) !! "USD").
Proof.
  destruct (loadExchangeRates_cases env s) as [[Ht ->] | (e & Ht & ->)].
  - split; [exact Ht|].
    rewrite loadExchangeRates_try_run in *.
    pose proof (loadUSD_ok env s) as Hu.
    destruct (loadUSD env s) as [[[]|e] s1]; cbn [fst snd] in *; [|discriminate].
    destruct (Hu eq_refl) as (r & data & table & _ & _ & _ & Hx & _).
    destruct (loadEUR_frame env s1 "USD") as (-> & _); [discriminate|].
    rewrite Hx, lookup_insert_eq. now eexists.
  - rewrite loadExchangeRates_catch_run. split; [reflexivity|].
    run_cbn. rewrite lookup_insert_eq. now eexists.
Qed.

Lemma loadExchangeRates_usd_table env s :
  exchangeRates (snd (loadExchangeRates env s)) !! "USD"
    = Some (VObj fallbackRates) \/
  exists r data table,
    usdResponse env s r /\ body r = Ok data /\ ratesOrData data = Ok table /\
    exchangeRates (snd (loadExchangeRates env s)) !! "USD" = Some table.
Proof.
  destruct (loadExchangeRates_cases env s) as [[Ht ->] | (e & Ht & ->)].
  - right. rewrite loadExchangeRates_try_run in *.
    pose proof (loadUSD_ok env s) as Hu.
    destruct (loadUSD env s) as [[[]|e] s1]; cbn [fst snd] in *; [|discriminate].
    destruct (Hu eq_refl) as (r & data & table & Hr & Hb & Hd & Hx & _).
    exists r, data, table. repeat split; try assumption.
    destruct (loadEUR_frame env s1 "USD") as (-> & _); [discriminate|].
    now rewrite Hx, lookup_insert_eq.
  - left. rewrite loadExchangeRates_catch_run. run_cbn.
    now rewrite lookup_insert_eq.
Qed.

(** X13: [loadExchangeRates] never throws, and it always leaves an entry
    under USD in the cache: either the fallback table, or the table of the
    body it parsed (the [rates] member of a wrapper, the body itself when
    it has no [rates] member), taken from the primary response when its
    status is ok and from the secondary response otherwise. *)
Theorem loadExchangeRates_total (env : host) (s : converter) :
  fst (loadExchangeRates env s) = Ok tt /\
  (exchangeRates (snd (loadExchangeRates env s)) !! "USD"
     = Some (VObj fallbackRates) \/
   exists r data table,
     usdResponse env s r /\ body r = Ok data /\ ratesOrData data = Ok table /\
     exchangeRates (snd (loadExchangeRates env s)) !! "USD" = Some table /\
     (forall o t, data = VObj (<["rates" := VObj t]> o) -> table = VObj t) /\
     (forall o, data = VObj o -> o !! "rates" = None -> table = data)).
Proof.
  split; [apply loadExchangeRates_usd_entry|].
  destruct (loadExchangeRates_usd_table env s)
    as [H | (r & data & table & Hr & Hb & Hd & Hx)]; [now left|].
  right. exists r, data, table. repeat split; try assumption.
  - intros o t ->. rewrite ratesOrData_wrapper in Hd. congruence.
  - intros o -> Ho. rewrite (ratesOrData_bare _ Ho) in Hd. congruence.
Qed.

(** X14: startup makes between one and three requests: first the primary
    endpoint for USD, then the secondary endpoint only if the primary one
    answered with an error status, and last the primary endpoint for EUR. *)
Theorem loadExchangeRates_requests (env : host) (s : converter) :
  exists l,
    requests (snd (loadExchangeRates env s))
      = (requests s ++ (baseUrl +:+ "USD") :: l)%list /\
    (l = [] \/ l = [fallbackUrl +:+ "?base=USD"] \/ l = [baseUrl +:+ "EUR"] \/
     l = [fallbackUrl +:+ "?base=USD"; baseUrl +:+ "EUR"]) /\
    (fallbackUrl +:+ "?base=USD" ∈ l ->
     exists r0, host_fetch env (requests s) (baseUrl +:+ "USD") = FetchResolve r0 /\
                ok r0 = false).
Proof.
  destruct (loadExchangeRates_try_requests env s) as (l & Hl & H).
  exists l. split; [|exact H].
  destruct (loadExchangeRates_cases env s) as [[_ ->] | (e & _ & ->)];
    [exact Hl|].
  rewrite loadExchangeRates_catch_run. exact Hl.
Qed.

(** X15: when the primary endpoint answers both startup requests with an
    ok status and bodies that hold tables, both tables are cached, the
    update time is taken after the USD table was stored, and page and
    console are untouched. *)
Theorem loadExchangeRates_success
    (env : host) (s : converter) (r1 r2 : response) (d1 d2 t1 t2 : value) :
  host_fetch env (requests s) (baseUrl +:+ "USD") = FetchResolve r1 ->
  ok r1 = true -> body r1 = Ok d1 -> ratesOrData d1 = Ok t1 ->
  host_fetch env (requests s ++ [baseUrl +:+ "USD"])%list (baseUrl +:+ "EUR")
    = FetchResolve r2 ->
  ok r2 = true -> body r2 = Ok d2 -> ratesOrData d2 = Ok t2 ->
  fst (loadExchangeRates env s) = Ok tt /\
  exchangeRates (snd (loadExchangeRates env s))
    = <["EUR" := t2]> (<["USD" := t1]> (exchangeRates s)) /\
  lastUpdate (snd (loadExchangeRates env s))
    = Some (host_now env (requests s ++ [baseUrl +:+ "USD"])%list) /\
  requests (snd (loadExchangeRates env s))
    = (requests s ++ [baseUrl +:+ "USD"; baseUrl +:+ "EUR"])%list /\
  page (snd (loadExchangeRates env s)) = page s /\
  console (snd (loadExchangeRates env s)) = console s.
Proof.
  intros H1 Hk1 Hb1 Hr1 H2 Hk2 Hb2 Hr2.
  unfold loadExchangeRates, loadExchangeRates_try, loadUSD, loadEUR, storeRates.
  run_unfold. rewrite H1, Hk1. run_cbn. rewrite Hb1, Hr1. run_cbn.
  rewrite H2, Hk2, Hb2, Hr2. run_cbn.
  repeat split. now rewrite <- app_assoc.
Qed.

(** X16: an error status on the EUR request is passed over in silence: its
    body is not parsed, the EUR entry of the cache stays as it was, the USD
    table just fetched is kept and no warning is shown. *)
Theorem loadExchangeRates_eur_refused
    (env : host) (s : converter) (r1 r2 : response) (d1 t1 : value) :
  host_fetch env (requests s) (baseUrl +:+ "USD") = FetchResolve r1 ->
  ok r1 = true -> body r1 = Ok d1 -> ratesOrData d1 = Ok t1 ->
  host_fetch env (requests s ++ [baseUrl +:+ "USD"])%list (baseUrl +:+ "EUR")
    = FetchResolve r2 ->
  ok r2 = false ->
  fst (loadExchangeRates env s) = Ok tt /\
  exchangeRates (snd (loadExchangeRates env s))
    = <["USD" := t1]> (exchangeRates s) /\
  page (snd (loadExchangeRates env s)) = page s /\
  console (snd (loadExchangeRates env s)) = console s.
Proof.
  intros H1 Hk1 Hb1 Hr1 H2 Hk2.
  unfold loadExchangeRates, loadExchangeRates_try, loadUSD, loadEUR, storeRates.
  run_unfold. rewrite H1, Hk1. run_cbn. rewrite Hb1, Hr1. run_cbn.
  rewrite H2, Hk2. run_cbn. repeat split.
Qed.

(** X17: when the USD part of the startup throws, the EUR table is never
    requested, the update time stays as it was, the error is logged, and
    the cache is the one of before with the fallback table under USD. *)
Theorem loadExchangeRates_usd_failure (env : host) (s : converter) (e : error) :
  fst (loadUSD env s) = Throw e ->
  exchangeRates (snd (loadExchangeRates env s))
    = <["USD" := VObj fallbackRates]> (exchangeRates s) /\
  lastUpdate (snd (loadExchangeRates env s)) = lastUpdate s /\
  console (snd (loadExchangeRates env s))
    = (console s ++ [("Error loading exchange rates:", e)])%list /\
  (requests (snd (loadExchangeRates env s))
     = (requests s ++ [baseUrl +:+ "USD"])%list \/
   requests (snd (loadExchangeRates env s))
     = (requests s ++ [baseUrl +:+ "USD"; fallbackUrl +:+ "?base=USD"])%list).
Proof.
  intros Hu.
  assert (Ht : loadExchangeRates_try env s = (Throw e, snd (loadUSD env s))).
  { rewrite loadExchangeRates_try_run.
    destruct (loadUSD env s) as [[[]|e0] s1]; cbn [fst snd] in *; congruence. }
  rewrite (loadExchangeRates_throw env s e) by now rewrite Ht.
  rewrite Ht, loadExchangeRates_catch_run. cbn [snd]. run_cbn.
  destruct (loadUSD_throw _ _ _ Hu) as (-> & -> & _ & ->).
  repeat split.
  destruct (loadUSD_requests env s) as [-> | [-> _]]; auto.
Qed.

(** ** Completions in either order *)

Lemma complete_cache s c :
  exchangeRates (Completions.complete s c) =
    match ratesOrData c.2 with
    | Ok table => <[c.1 := table]> (exchangeRates s)
    | Throw _ => exchangeRates s
    end.
Proof.
  unfold Completions.complete. rewrite storeRates_run.
  now destruct (ratesOrData c.2).
Qed.

(** X18: two fetch completions for different bases leave the same cache in
    whichever order they arrive; only completions for one base race. *)
Theorem completions_commute
    (s : converter) (c1 c2 : Completions.completion) :
  c1.1 <> c2.1 ->
  exchangeRates (Completions.run [c1; c2] s)
    = exchangeRates (Completions.run [c2; c1] s).
Proof.
  intros Hne. cbn [Completions.run fold_left].
  rewrite !complete_cache.
  destruct (ratesOrData c1.2), (ratesOrData c2.2); try reflexivity.
  now apply insert_insert_ne.
Qed.

(** ** The elements and the handlers *)

Lemma select_set_option v sel :
  v ∈ select_options sel ->
  select_set v sel = mkSelect (select_options sel) v.
Proof. intros H. unfold select_set. now rewrite decide_True. Qed.

(** X19: [swapCurrencies] exchanges the two selected codes when each of
    them is an option of the other select; the amount field and the options
    stay as they are. *)
Theorem swapCurrencies_exchanges
    (parseFloat : string -> float) (env : host) (w : widget) :
  select_value (toCurrency w) ∈ select_options (fromCurrency w) ->
  select_value (fromCurrency w) ∈ select_options (toCurrency w) ->
  select_value (fromCurrency (swapCurrencies parseFloat env w))
    = select_value (toCurrency w) /\
  select_value (toCurrency (swapCurrencies parseFloat env w))
    = select_value (fromCurrency w) /\
  select_options (fromCurrency (swapCurrencies parseFloat env w))
    = select_options (fromCurrency w) /\
  select_options (toCurrency (swapCurrencies parseFloat env w))
    = select_options (toCurrency w) /\
  amountInput (swapCurrencies parseFloat env w) = amountInput w.
Proof.
  intros Hf Ht. unfold swapCurrencies. cbv zeta.
  rewrite (select_set_option _ _ Hf), (select_set_option _ _ Ht).
  cbn [amountInput]. now destruct (truthy_str (amountInput w)).
Qed.

Lemma swapCurrencies_elements parseFloat env w :
  fromCurrency (swapCurrencies parseFloat env w)
    = select_set (select_value (toCurrency w)) (fromCurrency w) /\
  toCurrency (swapCurrencies parseFloat env w)
    = select_set (select_value (fromCurrency w)) (toCurrency w) /\
  amountInput (swapCurrencies parseFloat env w) = amountInput w.
Proof.
  unfold swapCurrencies. cbv zeta. cbn [amountInput].
  now destruct (truthy_str (amountInput w)).
Qed.

(** X20: swapping twice restores both selects, when the two selected
    codes are options of both selects. *)
Theorem swapCurrencies_twice
    (parseFloat : string -> float) (env : host) (w : widget) :
  select_value (fromCurrency w) ∈ select_options (fromCurrency w) ->
  select_value (fromCurrency w) ∈ select_options (toCurrency w) ->
  select_value (toCurrency w) ∈ select_options (fromCurrency w) ->
  select_value (toCurrency w) ∈ select_options (toCurrency w) ->
  fromCurrency (swapCurrencies parseFloat env (swapCurrencies parseFloat env w))
    = fromCurrency w /\
  toCurrency (swapCurrencies parseFloat env (swapCurrencies parseFloat env w))
    = toCurrency w.
Proof.
  intros Hff Hft Htf Htt.
  destruct (swapCurrencies_elements parseFloat env
              (swapCurrencies parseFloat env w)) as (-> & -> & _).
  destruct (swapCurrencies_elements parseFloat env w) as (-> & -> & _).
  rewrite (select_set_option _ _ Htf), (select_set_option _ _ Hft).
  cbn [select_value select_options].
  rewrite !select_set_option by assumption.
  cbn [select_options]. now destruct (fromCurrency w), (toCurrency w).
Qed.

Lemma convertCurrency_call_effect parseFloat env w :
  resolver_effect (select_value (fromCurrency w)) (core w)
    (core (convertCurrency_call parseFloat env w)).
Proof. apply convertCurrency_effect. Qed.

(** X21: the conversion started while the user types never goes to the
    network: the [input] listener converts only when a table for the
    selected source is cached, so it makes no request and leaves the cache
    as it is. *)
Theorem input_listener_offline
    (parseFloat : string -> float) (env : host) (w : widget) :
  requests (core (handle parseFloat env AmountInput w)) = requests (core w) /\
  exchangeRates (core (handle parseFloat env AmountInput w))
    = exchangeRates (core w).
Proof.
  cbn [handle].
  destruct (truthy_str (amountInput w)); cbn [andb]; [|now split].
  destruct (has_table (core w) (select_value (fromCurrency w))) eqn:Hn;
    [|now split].
  destruct (resolver_effect_cached _ _ _ Hn
              (convertCurrency_call_effect parseFloat env w)) as [Hx Hr].
  now split.
Qed.

(** X22: with an empty amount field no listener but the click on the
    convert button (and the Enter key) starts a conversion: typing and
    changing a select leave the widget as it is, and the swap button only
    swaps. *)
Theorem empty_amount_no_conversion
    (parseFloat : string -> float) (env : host) (w : widget) :
  amountInput w = "" ->
  handle parseFloat env AmountInput w = w /\
  handle parseFloat env FromChange w = w /\
  handle parseFloat env ToChange w = w /\
  core (handle parseFloat env SwapClick w) = core w.
Proof.
  intros H. cbn [handle]. unfold swapCurrencies. cbv zeta.
  cbn [amountInput]. rewrite H. repeat split.
Qed.

(** ** A session of events *)

Lemma resolver_effect_grows from s s' :
  resolver_effect from s s' -> grows s s'.
Proof.
  intros [[Hx Hr] | (Hn & Hr & Hx)]; unfold grows.
  - rewrite Hx, Hr. split; [|split].
    + exists []. split; [now rewrite app_nil_r | constructor].
    + reflexivity.
    + reflexivity.
  - split; [|split].
    + exists [baseUrl +:+ from]. split; [exact Hr|].
      constructor; [now exists from | constructor].
    + destruct Hx as [-> | [table ->]]; [reflexivity|].
      rewrite dom_insert. set_solver.
    + intros base Hb. destruct Hx as [-> | [table ->]]; [reflexivity|].
      apply lookup_insert_ne. intros <-. congruence.
Qed.

Lemma grows_refl s s' :
  exchangeRates s' = exchangeRates s -> requests s' = requests s -> grows s s'.
Proof. intros. now apply (resolver_effect_grows ""), resolver_effect_refl. Qed.

Lemma has_table_lookup s s' base :
  exchangeRates s' !! base = exchangeRates s !! base ->
  has_table s' base = has_table s base.
Proof. unfold has_table, cacheGet. now intros ->. Qed.

Lemma grows_trans s1 s2 s3 : grows s1 s2 -> grows s2 s3 -> grows s1 s3.
Proof.
  intros ((l1 & Hr1 & Hl1) & Hd1 & Ht1) ((l2 & Hr2 & Hl2) & Hd2 & Ht2).
  split; [|split].
  - exists (l1 ++ l2)%list. split.
    + now rewrite Hr2, Hr1, app_assoc.
    + apply Forall_app. split; [exact Hl1|].
      eapply Forall_impl; [exact Hl2|].
      intros url (code & -> & Hc). exists code. split; [reflexivity|].
      destruct (has_table s1 code) eqn:H1; [|reflexivity].
      now rewrite <- (has_table_lookup _ _ _ (Ht1 code H1)), Hc in H1.
  - set_solver.
  - intros base Hb. rewrite <- (Ht1 base Hb). apply Ht2.
    now rewrite (has_table_lookup _ _ _ (Ht1 base Hb)).
Qed.

Lemma handle_grows parseFloat env e w :
  grows (core w) (core (handle parseFloat env e w)).
Proof.
  assert (Hc : forall w0, grows (core w0) (core (convertCurrency_call parseFloat env w0))).
  { intros w0. eapply resolver_effect_grows, convertCurrency_call_effect. }
  assert (Hi : forall (b : bool) w0,
             grows (core w0) (core (if b then convertCurrency_call parseFloat env w0 else w0))).
  { intros [] w0; [apply Hc | now apply grows_refl]. }
  destruct e; cbn [handle]; try apply Hc; try apply Hi.
  unfold swapCurrencies. cbv zeta.
  match goal with |- grows _ (core (if _ then convertCurrency_call _ _ ?w' else _)) =>
    change (core w) with (core w') end.
  apply Hi.
Qed.

Lemma session_grows parseFloat env l w :
  grows (core w) (core (session parseFloat env l w)).
Proof.
  revert w. induction l as [|a l IH]; intros w.
  - now apply grows_refl.
  - change (session parseFloat env (a :: l) w)
      with (session parseFloat env l (perform parseFloat env w a)).
    eapply grows_trans; [|apply IH].
    destruct a as [e|amount from to]; cbn [perform].
    + apply handle_grows.
    + now apply grows_refl.
Qed.

Lemma append_inj (p a b : string) : p +:+ a = p +:+ b -> a = b.
Proof. induction p as [|c p IH]; cbn; [easy|]. intros [= H]. now apply IH. Qed.

(** X23: cached tables never expire.  Over any session of events and edits
    in which each conversion has completed before the next event, no entry
    leaves the cache, an entry that holds a table is not replaced, and no
    request for the table of its base is made again. *)
Theorem session_tables_persist
    (parseFloat : string -> float) (env : host) (l : list action) (w : widget) :
  dom (exchangeRates (core w))
    ⊆ dom (exchangeRates (core (session parseFloat env l w))) /\
  (forall base,
     has_table (core w) base = true ->
     exchangeRates (core (session parseFloat env l w)) !! base
       = exchangeRates (core w) !! base) /\
  (exists urls,
     requests (core (session parseFloat env l w))
       = (requests (core w) ++ urls)%list /\
     forall base,
       has_table (core w) base = true -> baseUrl +:+ base ∉ urls).
Proof.
  destruct (session_grows parseFloat env l w) as ((urls & Hr & Hu) & Hd & Ht).
  split; [exact Hd|]. split; [exact Ht|].
  exists urls. split; [exact Hr|].
  intros base Hb Hin.
  rewrite Forall_forall in Hu. destruct (Hu _ Hin) as (code & Heq & Hc).
  apply append_inj in Heq. subst code. congruence.
Qed.

(** X24: after startup the secondary endpoint is never asked.  Over any
    session the request log is only extended, and every request added goes
    to the primary endpoint for the table of some code. *)
Theorem session_requests
    (parseFloat : string -> float) (env : host) (l : list action) (w : widget) :
  exists urls,
    requests (core (session parseFloat env l w))
      = (requests (core w) ++ urls)%list /\
    Forall (fun url => exists code, url = baseUrl +:+ code) urls.
Proof.
  destruct (session_grows parseFloat env l w) as ((urls & Hr & Hu) & _).
  exists urls. split; [exact Hr|].
  eapply Forall_impl; [exact Hu|]. intros url (code & -> & _). now exists code.
Qed.

(** X25: once the startup load of the constructor has completed, the cache
    has an entry under USD at any later time: startup always leaves one,
    and no session removes it. *)
Theorem usd_entry_always
    (parseFloat : string -> float) (env : host) (l : list action)
    (amount : string) (from to : select) :
  is_Some (exchangeRates
             (core (session parseFloat env l (construct env amount from to)))
           !! "USD").
Proof.
  destruct (session_grows parseFloat env l (construct env amount from to))
    as (_ & Hd & _).
  apply elem_of_dom, Hd, elem_of_dom. cbn [core construct].
  apply loadExchangeRates_usd_entry.
Qed.

(** ** Instances of the further properties *)

Lemma getExchangeRate_ignores_status_witness :
  ok (mkResponse false (Ok (VObj {[ "error" := VBool true ]}))) = false /\
  exchangeRates (snd (getExchangeRate refusing "EUR" "USD" initElements))
    = <["EUR" := VObj {[ "error" := VBool true ]}]> ∅.
Proof.
  split; [reflexivity|].
  apply (getExchangeRate_ignores_status refusing initElements "EUR" "USD"
           (mkResponse false (Ok (VObj {[ "error" := VBool true ]})))
           (VObj {[ "error" := VBool true ]})
           (VObj {[ "error" := VBool true ]})); reflexivity.
Defined.

Lemma getExchangeRate_fetches_once_witness :
  snd (getExchangeRate Samples.skewed "EUR" "GBP"
         (snd (getExchangeRate Samples.skewed "EUR" "USD" initElements)))
    = snd (getExchangeRate Samples.skewed "EUR" "USD" initElements).
Proof.
  apply (getExchangeRate_fetches_once Samples.skewed initElements "EUR" "USD" "GBP"
           (mkResponse true (Ok (Samples.wrapped [("EUR", 1); ("USD", 2)]%float)))
           (Samples.wrapped [("EUR", 1); ("USD", 2)]%float)
           (Samples.table [("EUR", 1); ("USD", 2)]%float)); reflexivity.
Defined.

Lemma getExchangeRate_silent_nan_witness :
  getExchangeRate Samples.offline "USD" "EUR" sparse = (Ok (VNum nan), sparse).
Proof.
  destruct (getExchangeRate_silent_nan Samples.offline sparse "USD" "EUR"
              (list_to_map [("GBP", VNum 0.73)])
              (list_to_map [("GBP", VNum 0.86)])) as [H _];
    [reflexivity | reflexivity | reflexivity |].
  apply H. reflexivity.
Defined.

Lemma convertCurrency_result_or_message_witness :
  (exists amount rate,
     resultContent_innerHTML
       (page (snd (convertCurrency Samples.offline 100 "USD" "EUR"
                     Samples.afterOfflineStartup)))
       = HtmlResult amount "USD" "EUR" rate /\
     result_error
       (page (snd (convertCurrency Samples.offline 100 "USD" "EUR"
                     Samples.afterOfflineStartup))) = false) \/
  (exists message,
     resultContent_innerHTML
       (page (snd (convertCurrency Samples.offline 100 "USD" "EUR"
                     Samples.afterOfflineStartup)))
       = HtmlError message /\
     result_error
       (page (snd (convertCurrency Samples.offline 100 "USD" "EUR"
                     Samples.afterOfflineStartup))) = true /\
     (message = "Please enter a valid amount" \/
      message = "Conversion failed. Please try again.")).
Proof.
  apply (convertCurrency_result_or_message Samples.offline
           Samples.afterOfflineStartup 100 "USD" "EUR").
  discriminate.
Defined.

Lemma convertCurrency_malformed_target_witness :
  well_formed_currency_code "EURO" = false /\
  resultContent_innerHTML
    (page (snd (convertCurrency Samples.offline 100 "USD" "EURO"
                  Samples.afterOfflineStartup)))
    = HtmlError "Conversion failed. Please try again.".
Proof.
  split; [reflexivity|].
  apply (convertCurrency_malformed_target Samples.offline
           Samples.afterOfflineStartup 100 "USD" "EURO");
    [reflexivity | discriminate | reflexivity].
Defined.

Lemma convertCurrency_frame_witness :
  requests (snd (convertCurrency Samples.offline 100 "USD" "EUR"
                   Samples.afterOfflineStartup))
    = requests Samples.afterOfflineStartup.
Proof.
  destruct (convertCurrency_frame Samples.offline Samples.afterOfflineStartup
              100 "USD" "EUR") as [H _].
  apply H. reflexivity.
Defined.

Lemma convertCurrency_converts_witness :
  page (snd (convertCurrency Samples.offline 100 "USD" "EUR"
               Samples.afterOfflineStartup))
    = mkElements false "block" false true
        (HtmlResult (100 * 0.85)%float "USD" "EUR" 0.85) "block".
Proof.
  apply (convertCurrency_converts Samples.offline Samples.afterOfflineStartup
           100 0.85 "USD" "EUR" fallbackRates);
    [reflexivity | discriminate | reflexivity | reflexivity | reflexivity].
Defined.

Lemma convertCurrency_entry_not_a_number_witness :
  getExchangeRate Samples.offline "USD" "EUR" oddEntry = (Ok (VBool true), oddEntry) /\
  resultContent_innerHTML
    (page (snd (convertCurrency Samples.offline 100 "USD" "EUR" oddEntry)))
    = HtmlError "Conversion failed. Please try again.".
Proof.
  destruct (convertCurrency_entry_not_a_number Samples.offline oddEntry 100
              "USD" "EUR" {[ "EUR" := VBool true ]} (VBool true))
    as (H1 & H2 & _);
    [reflexivity | discriminate | reflexivity | reflexivity | discriminate
    | reflexivity |].
  now split.
Defined.

Lemma convertCurrency_same_malformed_witness :
  well_formed_currency_code "" = false /\
  fst (convertCurrency Samples.offline 100 "" "" initElements) = Throw RangeError.
Proof.
  split; [reflexivity|].
  apply (convertCurrency_same_malformed Samples.offline initElements 100 "");
    reflexivity.
Defined.

Lemma loadExchangeRates_success_witness :
  exchangeRates (snd (loadExchangeRates Samples.skewed initElements))
    = <["EUR" := Samples.table [("EUR", 1); ("USD", 2)]%float]>
        (<["USD" := Samples.table [("USD", 1); ("EUR", 0.85)]%float]> ∅).
Proof.
  apply (loadExchangeRates_success Samples.skewed initElements
           (mkResponse true (Ok (Samples.wrapped [("USD", 1); ("EUR", 0.85)]%float)))
           (mkResponse true (Ok (Samples.wrapped [("EUR", 1); ("USD", 2)]%float)))
           (Samples.wrapped [("USD", 1); ("EUR", 0.85)]%float)
           (Samples.wrapped [("EUR", 1); ("USD", 2)]%float)
           (Samples.table [("USD", 1); ("EUR", 0.85)]%float)
           (Samples.table [("EUR", 1); ("USD", 2)]%float)); reflexivity.
Defined.

Lemma loadExchangeRates_eur_refused_witness :
  exchangeRates (snd (loadExchangeRates usdOnly initElements))
    = <["USD" := Samples.table [("EUR", 0.9); ("USD", 1)]%float]> ∅ /\
  page (snd (loadExchangeRates usdOnly initElements)) = initial_page.
Proof.
  destruct (loadExchangeRates_eur_refused usdOnly initElements
              (mkResponse true (Ok (Samples.wrapped [("EUR", 0.9); ("USD", 1)]%float)))
              (mkResponse false (Throw SyntaxError))
              (Samples.wrapped [("EUR", 0.9); ("USD", 1)]%float)
              (Samples.table [("EUR", 0.9); ("USD", 1)]%float))
    as (_ & H1 & H2 & _); try reflexivity.
  now split.
Defined.

Lemma loadExchangeRates_usd_failure_witness :
  fst (loadUSD Samples.offline initElements) = Throw (NetworkError "offline") /\
  exchangeRates (snd (loadExchangeRates Samples.offline initElements))
    = <["USD" := VObj fallbackRates]> ∅.
Proof.
  split; [reflexivity|].
  apply (loadExchangeRates_usd_failure Samples.offline initElements
           (NetworkError "offline")).
  reflexivity.
Defined.

Lemma completions_commute_witness :
  exchangeRates
    (Completions.run [("USD", Samples.table [("EUR", 0.9)]%float);
                      ("EUR", Samples.table [("USD", 1.1)]%float)] initElements)
  = exchangeRates
      (Completions.run [("EUR", Samples.table [("USD", 1.1)]%float);
                        ("USD", Samples.table [("EUR", 0.9)]%float)] initElements).
Proof.
  apply (completions_commute initElements
           ("USD", Samples.table [("EUR", 0.9)]%float)
           ("EUR", Samples.table [("USD", 1.1)]%float)).
  discriminate.
Defined.

Lemma swapCurrencies_exchanges_witness :
  select_value (fromCurrency (swapCurrencies sampleParseFloat Samples.offline
                                sampleWidget)) = "EUR" /\
  select_value (toCurrency (swapCurrencies sampleParseFloat Samples.offline
                              sampleWidget)) = "USD".
Proof.
  destruct (swapCurrencies_exchanges sampleParseFloat Samples.offline sampleWidget)
    as (H1 & H2 & _).
  - unfold sampleWidget, currencies. cbn. set_solver.
  - unfold sampleWidget, currencies. cbn. set_solver.
  - now split.
Defined.

Lemma swapCurrencies_twice_witness :
  fromCurrency (swapCurrencies sampleParseFloat Samples.offline
                  (swapCurrencies sampleParseFloat Samples.offline sampleWidget))
    = mkSelect currencies "USD".
Proof.
  apply (swapCurrencies_twice sampleParseFloat Samples.offline sampleWidget);
    unfold sampleWidget, currencies; cbn; set_solver.
Defined.

Lemma empty_amount_no_conversion_witness :
  handle sampleParseFloat Samples.offline FromChange
    (mkWidget "" (mkSelect currencies "USD") (mkSelect currencies "EUR")
       Samples.afterOfflineStartup)
  = mkWidget "" (mkSelect currencies "USD") (mkSelect currencies "EUR")
      Samples.afterOfflineStartup.
Proof.
  apply (empty_amount_no_conversion sampleParseFloat Samples.offline
           (mkWidget "" (mkSelect currencies "USD") (mkSelect currencies "EUR")
              Samples.afterOfflineStartup)).
  reflexivity.
Defined.

Lemma session_tables_persist_witness :
  exchangeRates
    (core (session sampleParseFloat Samples.offline
             [Handle ConvertClick; Handle SwapClick;
              Edit "2.5" (mkSelect currencies "GBP") (mkSelect currencies "JPY");
              Handle FromChange]
             sampleWidget)) !! "USD"
  = Some (VObj fallbackRates).
Proof.
  destruct (session_tables_persist sampleParseFloat Samples.offline
              [Handle ConvertClick; Handle SwapClick;
               Edit "2.5" (mkSelect currencies "GBP") (mkSelect currencies "JPY");
               Handle FromChange]
              sampleWidget) as (_ & H & _).
  rewrite H; reflexivity.
Defined.

(** ** The inverse fallback *)



(** No tolerance holds for every entry a table can have: with a subnormal
    entry the inverse is Infinity, and so is the product. *)
Lemma inverse_fallback_overflow :
  getExchangeRate Samples.offline "USD" "EUR" tinyEntry
    = (Ok (VNum 5e-324), tinyEntry) /\
  getExchangeRate Samples.offline "EUR" "USD" tinyEntry
    = (Ok (VNum infinity), tinyEntry) /\
  (5e-324 * infinity)%float = infinity.
Proof. repeat split. Qed.

(** For the ten rates of the fallback table the product t * (1 / t) is
    within 2^-52 of 1. *)
Lemma fallbackList_inverse code t :
  (code, t) ∈ fallbackList -> reciprocal t (1 / t) = true.
Proof.
  assert (H : forallb (fun p => reciprocal p.2 (1 / p.2)) fallbackList = true)
    by (vm_compute; reflexivity).
  rewrite forallb_forall in H. intros Hin.
  apply list_elem_of_In in Hin. exact (H _ Hin).
Qed.

(** ** Calls that overlap, and startup over a filled cache *)

Lemma getExchangeRate_split env s from to :
  has_table s from = false ->
  getExchangeRate env from to s
    = getExchangeRate_resume from to
        (host_fetch env (requests s) (baseUrl +:+ from))
        (requested (baseUrl +:+ from) s).
Proof.
  unfold has_table. intros Hn.
  unfold getExchangeRate, getExchangeRate_resume, fetchRates, requested,
    storeRates.
  run_unfold. rewrite Hn. cbn [negb].
  destruct (host_fetch env (requests s) (baseUrl +:+ from)) as [e|r];
    [reflexivity|].
  destruct (body r) as [data|e]; [|reflexivity].
  destruct (ratesOrData data); reflexivity.
Qed.

Lemma resume_cache s p :
  exchangeRates (resume s p) =
    match completionOf p with
    | Some c => exchangeRates (Completions.complete s c)
    | None => exchangeRates s
    end.
Proof.
  unfold resume, completionOf, getExchangeRate_resume.
  destruct p as [from to [e|r]]; cbn [pending_from pending_to pending_outcome].
  - run_unfold. pose proof (crossRate_state from to s) as Hc.
    destruct (crossRate from to s) as [[[rate|]|e'] s']; cbn [snd] in *;
      subst s'; reflexivity.
  - unfold storeRates. run_unfold.
    destruct (body r) as [data|e].
    + rewrite complete_cache. cbn [fst snd].
      destruct (ratesOrData data) as [table|e].
      * now rewrite directOrInverse_state.
      * pose proof (crossRate_state from to s) as Hc.
        destruct (crossRate from to s) as [[[rate|]|e'] s']; cbn [snd] in *;
          subst s'; reflexivity.
    + pose proof (crossRate_state from to s) as Hc.
      destruct (crossRate from to s) as [[[rate|]|e'] s']; cbn [snd] in *;
        subst s'; reflexivity.
Qed.

Lemma run_cache_ext cs s s' :
  exchangeRates s = exchangeRates s' ->
  exchangeRates (Completions.run cs s) = exchangeRates (Completions.run cs s').
Proof.
  revert s s'. induction cs as [|c cs IH]; intros s s' H; [exact H|].
  cbn [Completions.run fold_left]. apply IH.
  now rewrite !complete_cache, H.
Qed.

Lemma resumeAll_cache ps s :
  exchangeRates (resumeAll ps s)
    = exchangeRates (Completions.run (omap completionOf ps) s).
Proof.
  revert s. induction ps as [|p ps IH]; intros s; [reflexivity|].
  change (resumeAll (p :: ps) s) with (resumeAll ps (resume s p)).
  rewrite IH. pose proof (resume_cache s p) as Hp.
  change (omap completionOf (p :: ps))
    with (match completionOf p with
          | Some c => c :: omap completionOf ps
          | None => omap completionOf ps
          end).
  destruct (completionOf p) as [c|]; [|now apply run_cache_ext].
  change (Completions.run (c :: omap completionOf ps) s)
    with (Completions.run (omap completionOf ps) (Completions.complete s c)).
  now apply run_cache_ext.
Qed.

Lemma loadUSD_stores env s r data table :
  usdResponse env s r -> body r = Ok data -> ratesOrData data = Ok table ->
  fst (loadUSD env s) = Ok tt /\
  exchangeRates (snd (loadUSD env s)) = <["USD" := table]> (exchangeRates s).
Proof.
  intros [[H1 Hok] | (r0 & H0 & Hok & H1)] Hb Hr.
  - unfold loadUSD, storeRates. run_unfold.
    rewrite H1, Hok. run_cbn. now rewrite Hb, Hr.
  - now destruct (loadUSD_secondary _ _ _ _ _ _ H0 Hok H1 Hb Hr) as (Hu & Hx & _).
Qed.

Lemma loadEUR_stores env s r data table :
  host_fetch env (requests s) (baseUrl +:+ "EUR") = FetchResolve r ->
  ok r = true -> body r = Ok data -> ratesOrData data = Ok table ->
  fst (loadEUR env s) = Ok tt /\
  exchangeRates (snd (loadEUR env s)) = <["EUR" := table]> (exchangeRates s).
Proof.
  intros H1 Hok Hb Hr. unfold loadEUR, storeRates. run_unfold.
  rewrite H1, Hok. run_cbn. now rewrite Hb, Hr.
Qed.

Lemma loadExchangeRates_after_usd env s :
  fst (loadUSD env s) = Ok tt ->
  fst (loadEUR env (snd (loadUSD env s))) = Ok tt ->
  loadExchangeRates env s = loadEUR env (snd (loadUSD env s)).
Proof.
  intros Hu He.
  assert (Ht : loadExchangeRates_try env s = loadEUR env (snd (loadUSD env s))).
  { rewrite loadExchangeRates_try_run.
    destruct (loadUSD env s) as [[[]|e0] s1]; [reflexivity | discriminate]. }
  rewrite loadExchangeRates_ok by now rewrite Ht.
  exact Ht.
Qed.

(** C9: the cache has one entry per base code, and the table fetched last
    is the one it holds.  A call of [getExchangeRate] that finds no table
    is its request followed by its resumption; over any sequence of
    resumptions of pending calls the entry of a base is the table of the
    latest one that stored a table for it (the entry of before if there is
    none), so of two overlapping calls for one base the one resumed last
    wins; and a startup that does not throw leaves under USD and under EUR
    the tables it fetched, whatever the cache held there. *)
Theorem cache_last_fetch_wins (env : host) (ps : list pending) (s : converter) :
  NoDup (map_to_list (exchangeRates (resumeAll ps s))).*1 /\
  (forall from to,
     has_table s from = false ->
     getExchangeRate env from to s
       = getExchangeRate_resume from to
           (host_fetch env (requests s) (baseUrl +:+ from))
           (requested (baseUrl +:+ from) s)) /\
  (forall base,
     exchangeRates (resumeAll ps s) !! base =
       match Completions.lastFetched base (omap completionOf ps) with
       | Some table => Some table
       | None => exchangeRates s !! base
       end) /\
  (forall from to r data table,
     body r = Ok data ->
     ratesOrData data = Ok table ->
     exchangeRates (resumeAll (ps ++ [mkPending from to (FetchResolve r)]) s)
       !! from = Some table) /\
  (forall r data table,
     usdResponse env s r -> body r = Ok data -> ratesOrData data = Ok table ->
     fst (loadEUR env (snd (loadUSD env s))) = Ok tt ->
     exchangeRates (snd (loadExchangeRates env s)) !! "USD" = Some table) /\
  (forall r data table,
     fst (loadUSD env s) = Ok tt ->
     host_fetch env (requests (snd (loadUSD env s))) (baseUrl +:+ "EUR")
       = FetchResolve r ->
     ok r = true -> body r = Ok data -> ratesOrData data = Ok table ->
     exchangeRates (snd (loadExchangeRates env s)) !! "EUR" = Some table).
Proof.
  split; [apply NoDup_fst_map_to_list|].
  split; [intros from to; apply getExchangeRate_split|].
  split; [intros base; now rewrite resumeAll_cache, run_lookup|].
  split; [|split].
  - intros from to r data table Hb Hr.
    rewrite resumeAll_cache, run_lookup, omap_app.
    assert (Hc : completionOf (mkPending from to (FetchResolve r))
                 = Some (from, data)).
    { unfold completionOf. cbn [pending_outcome pending_from]. now rewrite Hb. }
    change (omap completionOf [mkPending from to (FetchResolve r)])
      with (match completionOf (mkPending from to (FetchResolve r)) with
            | Some c => [c]
            | None => []
            end).
    rewrite Hc, lastFetched_snoc. cbn [fst snd].
    now rewrite String.eqb_refl, Hr.
  - intros r data table Hu Hb Hr He.
    destruct (loadUSD_stores _ _ _ _ _ Hu Hb Hr) as [Hok Hx].
    rewrite (loadExchangeRates_after_usd _ _ Hok He).
    destruct (loadEUR_frame env (snd (loadUSD env s)) "USD") as (-> & _);
      [discriminate|].
    rewrite Hx. apply lookup_insert_eq.
  - intros r data table Hu H1 Hok Hb Hr.
    destruct (loadEUR_stores _ _ _ _ _ H1 Hok Hb Hr) as [He Hx].
    rewrite (loadExchangeRates_after_usd _ _ Hu He), Hx.
    apply lookup_insert_eq.
Qed.

Lemma cache_last_fetch_wins_witness :
  exchangeRates
    (resumeAll
       ([mkPending "EUR" "USD"
           (Samples.respond true (Samples.wrapped [("USD", 1.1)]%float))]
        ++ [mkPending "EUR" "GBP"
              (FetchResolve
                 (mkResponse true (Ok (Samples.table [("USD", 1.2)]%float))))])
       initElements) !! "EUR"
    = Some (Samples.table [("USD", 1.2)]%float) /\
  exchangeRates
    (snd (loadExchangeRates Samples.skewed Samples.afterOfflineStartup)) !! "USD"
    = Some (Samples.table [("USD", 1); ("EUR", 0.85)]%float).
Proof.
  split.
  - apply (cache_last_fetch_wins Samples.offline
             [mkPending "EUR" "USD"
                (Samples.respond true (Samples.wrapped [("USD", 1.1)]%float))]
             initElements)
      with (data := Samples.table [("USD", 1.2)]%float); reflexivity.
  - destruct (cache_last_fetch_wins Samples.skewed [] Samples.afterOfflineStartup)
      as (_ & _ & _ & _ & H & _).
    apply (H (mkResponse true
                (Ok (Samples.wrapped [("USD", 1); ("EUR", 0.85)]%float)))
             (Samples.wrapped [("USD", 1); ("EUR", 0.85)]%float));
      [left; split; reflexivity | reflexivity | reflexivity | reflexivity].
Defined.
